(** * redact-pii: geometry, word matching and redaction rendering

    A shallow embedding of the core of the redact-pii service:

    - [models/__init__.py]: [BoundingBox.from_polygon], [DocumentWord];
    - [services/pii_detection_service.py]: [get_words_containing_pii];
    - [services/image_redaction_service.py]: [redact_image];
    - [services/pii_redaction_service.py]: [redact_pii].

    Python exceptions are values of [PyException]; a call that may raise
    returns a [result].  Text is a [string] whose characters are the code
    points below 256; numbers that the source types as [float] are kept
    abstract (a type [num] with its comparison and arithmetic).  The
    collaborators (OCR, PII detection) and the Pillow calls of the renderer
    are parameters of the sections that use them. *)

From Stdlib Require Import List Bool Arith Lia NArith ZArith Ascii String.
From Stdlib Require Import Strings.Byte.
From Stdlib Require Import Permutation.
Import ListNotations.

Set Implicit Arguments.

Local Open Scope list_scope.
Local Open Scope string_scope.

(** ** Python exceptions and the error monad *)

Inductive PyException : Type :=
| ValueError (msg : string)
| TypeError (msg : string)
| IndexError (msg : string)
| UnidentifiedImageError (msg : string).

Inductive result (A : Type) : Type :=
| Ok (a : A)
| Raise (e : PyException).

Arguments Ok {A} a.
Arguments Raise {A} e.

Definition bind {A B : Type} (m : result A) (k : A -> result B) : result B :=
  match m with
  | Ok a => k a
  | Raise e => Raise e
  end.

Notation "x <- m ;; k" := (bind m (fun x => k))
  (at level 61, m at next level, right associativity).

(** A [for] loop whose body may raise: the state is threaded through the
    iterations and the first exception aborts the loop. *)
Fixpoint for_each {A S : Type} (l : list A) (body : S -> A -> result S) (s : S)
  : result S :=
  match l with
  | [] => Ok s
  | a :: l' => s' <- body s a ;; for_each l' body s'
  end.

(** ** Python [str] operations used by the matcher *)

Module PyStr.

(** [str.isspace] on one character: the white space code points below 256. *)
Definition isspace (c : ascii) : bool :=
  let n := N_of_ascii c in
  ((9 <=? n) && (n <=? 13) || (28 <=? n) && (n <=? 32)
   || (n =? 133) || (n =? 160))%N.

(** [str.lower] on one character: A-Z and the upper-case letters of the
    Latin-1 block move up by 32, everything else is unchanged. *)
Definition lower_char (c : ascii) : ascii :=
  let n := N_of_ascii c in
  if ((65 <=? n) && (n <=? 90)
      || (192 <=? n) && (n <=? 222) && negb (n =? 215))%N
  then ascii_of_N (n + 32)
  else c.

Fixpoint lower (s : string) : string :=
  match s with
  | EmptyString => EmptyString
  | String c r => String (lower_char c) (lower r)
  end.

Definition is_empty (s : string) : bool :=
  match s with
  | EmptyString => true
  | String _ _ => false
  end.

Fixpoint lstrip (s : string) : string :=
  match s with
  | EmptyString => EmptyString
  | String c r => if isspace c then lstrip r else s
  end.

Fixpoint rstrip (s : string) : string :=
  match s with
  | EmptyString => EmptyString
  | String c r =>
      let r' := rstrip r in
      if isspace c && is_empty r' then EmptyString else String c r'
  end.

(** [s.strip()] *)
Definition strip (s : string) : string := rstrip (lstrip s).

(** [s.split()] without argument: the maximal runs of non-space characters,
    in order.  [cur] is the run being read. *)
Fixpoint split_from (cur : string) (s : string) : list string :=
  match s with
  | EmptyString => if is_empty cur then [] else [cur]
  | String c r =>
      if isspace c
      then (if is_empty cur then split_from "" r else cur :: split_from "" r)
      else split_from (cur ++ String c "") r
  end.

Definition split (s : string) : list string := split_from "" s.

Fixpoint startswith (p s : string) : bool :=
  match p, s with
  | EmptyString, _ => true
  | String _ _, EmptyString => false
  | String a p', String b s' => Ascii.eqb a b && startswith p' s'
  end.

(** [needle in hay] on strings: [needle] occurs in [hay] at some position. *)
Fixpoint contains (needle hay : string) : bool :=
  startswith needle hay
  || match hay with
     | EmptyString => false
     | String _ r => contains needle r
     end.

(** The substring relation in words: [hay] is some text, then [needle],
    then some text. *)
Definition Substring (needle hay : string) : Prop :=
  exists pre post, hay = pre ++ needle ++ post.

End PyStr.

(** ** Python built-ins used by the geometry model and the matcher *)

Module PyBuiltins.

(** The [__eq__] / [__hash__] protocol of a class, as [set] uses it:
    [hash(a)] may raise. *)
Class PyHashable (A : Type) : Type := {
  py_eq : A -> A -> bool;
  py_hash : A -> result Z
}.

(** A [set]: its elements, pairwise different for [==], in the order in which
    iteration visits them. *)
Definition PySet (A : Type) : Type := list A.

Definition set_empty {A : Type} : PySet A := [].

(** [s.add(a)]: the element is hashed first (which raises for an unhashable
    object) and is stored unless an equal element is there already. *)
Definition set_add {A : Type} `{PyHashable A} (s : PySet A) (a : A)
  : result (PySet A) :=
  _ <- py_hash a ;;
  Ok (if existsb (py_eq a) s then s else (s ++ [a])%list).

(** [list(s)] *)
Definition list_of_set {A : Type} (s : PySet A) : list A := s.

(** [set(l)] for a list of [str], which are hashable. *)
Definition set_of_strings (l : list string) : PySet string :=
  nodup string_dec l.

(** [len(l)] on a list. *)
Definition len {A : Type} (l : list A) : nat := List.length l.

(** [range(start, stop, step)] for a positive [step]. *)
Definition range (start stop step : nat) : list nat :=
  map (fun k => start + k * step) (seq 0 ((stop - start + (step - 1)) / step)).

(** [l[i]] for a non-negative index. *)
Definition getitem {A : Type} (l : list A) (i : nat) : result A :=
  match nth_error l i with
  | Some a => Ok a
  | None => Raise (IndexError "list index out of range")
  end.

(** The list comprehension [[f(i) for i in idx]]. *)
Fixpoint comprehension {A B : Type} (f : A -> result B) (idx : list A)
  : result (list B) :=
  match idx with
  | [] => Ok []
  | i :: idx' => b <- f i ;; bs <- comprehension f idx' ;; Ok (b :: bs)
  end.

Section MinMax.

Variable A : Type.
(** [lt a b] is Python's [a < b]; [b > a] on numbers is the same test. *)
Variable lt : A -> A -> bool.

(** One iteration of [min]: the item replaces the current value when
    [item < current]. *)
Definition min_step (cur item : A) : A := if lt item cur then item else cur.

(** One iteration of [max]: the item replaces the current value when
    [item > current]. *)
Definition max_step (cur item : A) : A := if lt cur item then item else cur.

Definition py_min (l : list A) : result A :=
  match l with
  | [] => Raise (ValueError "min() arg is an empty sequence")
  | a :: r => Ok (fold_left min_step r a)
  end.

Definition py_max (l : list A) : result A :=
  match l with
  | [] => Raise (ValueError "max() arg is an empty sequence")
  | a :: r => Ok (fold_left max_step r a)
  end.

(** [m] is a minimum of [l]: it occurs in [l] and nothing in [l] is below it. *)
Definition least (m : A) (l : list A) : Prop :=
  In m l /\ forall v, In v l -> lt v m = false.

(** [m] is a maximum of [l]: it occurs in [l] and nothing in [l] is above it. *)
Definition greatest (m : A) (l : list A) : Prop :=
  In m l /\ forall v, In v l -> lt m v = false.

End MinMax.

End PyBuiltins.

(** ** models/__init__.py *)

Module Models.
Import PyBuiltins.

Section BoundingBox.

(** The type of the coordinates ([float] in the annotations), with [<] and
    binary [-]. *)
Variable num : Type.
Variable lt_num : num -> num -> bool.
Variable sub_num : num -> num -> num.

Record BoundingBox : Type := {
  x : num;
  y : num;
  width : num;
  height : num
}.

Definition polygon_too_short : PyException :=
  ValueError "Polygon must have at least 4 points (8 coordinates)".

(** [BoundingBox.from_polygon] *)
Definition from_polygon (polygon : list num) : result BoundingBox :=
  if (len polygon <? 8)%nat then Raise polygon_too_short
  else
    x_coords <- comprehension (getitem polygon) (range 0 (len polygon) 2) ;;
    y_coords <- comprehension (getitem polygon) (range 1 (len polygon) 2) ;;
    x <- py_min lt_num x_coords ;;
    y <- py_min lt_num y_coords ;;
    max_x <- py_max lt_num x_coords ;;
    let width := sub_num max_x x in
    max_y <- py_max lt_num y_coords ;;
    let height := sub_num max_y y in
    Ok {| x := x; y := y; width := width; height := height |}.

(** A list of (x, y) pairs written out as alternating scalars, as
    [extract_text_from_image] builds the argument of [from_polygon]:
    [[coord for point in word.polygon for coord in (point.x, point.y)]] *)
Definition flatten (points : list (num * num)) : list num :=
  flat_map (fun p => [fst p; snd p]) points.

End BoundingBox.

Section DocumentWord.

Variable num : Type.
(** [==] on coordinates and confidences. *)
Variable eqb_num : num -> num -> bool.

(** A [@dataclass] with the default [eq=True, frozen=False]: [__eq__]
    compares the fields in order, and [__hash__] is set to [None], so
    hashing an instance raises [TypeError]. *)
Definition BoundingBox_eq (a b : BoundingBox num) : bool :=
  eqb_num (x a) (x b) && eqb_num (y a) (y b)
  && eqb_num (width a) (width b) && eqb_num (height a) (height b).

#[export] Instance BoundingBox_hashable : PyHashable (BoundingBox num) := {
  py_eq := BoundingBox_eq;
  py_hash := fun _ => Raise (TypeError "unhashable type: 'BoundingBox'")
}.

Record DocumentWord : Type := {
  content : string;
  bounding_box : BoundingBox num;
  confidence : num
}.

(** [DocumentWord(content=text, bounding_box=box, confidence=conf)] *)
Definition mk_word (text : string) (box : BoundingBox num) (conf : num)
  : DocumentWord :=
  {| content := text; bounding_box := box; confidence := conf |}.

Definition DocumentWord_eq (a b : DocumentWord) : bool :=
  String.eqb (content a) (content b)
  && BoundingBox_eq (bounding_box a) (bounding_box b)
  && eqb_num (confidence a) (confidence b).

Definition unhashable_DocumentWord : PyException :=
  TypeError "unhashable type: 'DocumentWord'".

#[export] Instance DocumentWord_hashable : PyHashable DocumentWord := {
  py_eq := DocumentWord_eq;
  py_hash := fun _ => Raise unhashable_DocumentWord
}.

End DocumentWord.

(** The field [content] is written [result_content] here, next to
    [DocumentWord]'s own [content]. *)
Record ImageRedactionResult : Type := {
  result_content : list byte;
  content_type : string
}.

End Models.

(** ** services/pii_detection_service.py *)

Module PiiDetectionService.
Import PyBuiltins Models.

Section Matcher.

Variable num : Type.
Variable eqb_num : num -> num -> bool.

#[local] Instance word_hashable : PyHashable (DocumentWord num) :=
  DocumentWord_hashable eqb_num.

(** [[component.strip() for component in pii_value.strip().split()
      if component.strip()]] *)
Definition pii_components (pii_value : string) : list string :=
  map PyStr.strip
    (filter (fun component => negb (PyStr.is_empty (PyStr.strip component)))
       (PyStr.split (PyStr.strip pii_value))).

(** The test of the innermost [if]:
    [component.lower() in word.content.lower() or
     word.content.lower() in component.lower()] *)
Definition matches (component : string) (word : DocumentWord num) : bool :=
  PyStr.contains (PyStr.lower component) (PyStr.lower (content word))
  || PyStr.contains (PyStr.lower (content word)) (PyStr.lower component).

(** [get_words_containing_pii]; [pii_values] lists the set of PII strings in
    the order in which the outer loop visits it. *)
Definition get_words_containing_pii
    (extracted_words : list (DocumentWord num)) (pii_values : list string)
  : result (list (DocumentWord num)) :=
  words_containing_pii <-
    for_each pii_values (fun acc pii_value =>
      let components := pii_components pii_value in
      for_each extracted_words (fun acc word =>
        for_each components (fun acc component =>
          if matches component word then set_add acc word else Ok acc)
        acc)
      acc)
    set_empty ;;
  Ok (list_of_set words_containing_pii).

(** Whether the innermost test succeeds for some PII value, word and
    component. *)
Definition any_match
    (extracted_words : list (DocumentWord num)) (pii_values : list string)
  : bool :=
  existsb (fun pii_value =>
    existsb (fun word =>
      existsb (fun component => matches component word)
        (pii_components pii_value))
      extracted_words)
    pii_values.

End Matcher.

Section ExtractPii.

(** [self.pii_detection_provider.detect_pii], the PII-detection collaborator. *)
Variable detect_pii : string -> result (list string).

(** [extract_pii]: the detected values as a set. *)
Definition extract_pii (text_content : string) : result (PySet string) :=
  pii_values <- detect_pii text_content ;;
  Ok (set_of_strings pii_values).

End ExtractPii.

End PiiDetectionService.

(** ** Pillow images

    What [redact_image] observes of a [PIL.Image.Image]: its mode, its size,
    its pixels in row-major order (each a tuple of 8-bit bands) and the
    ancillary [info] that a codec may read or write. *)

Module PIL.

Definition Pixel : Type := list byte.

Record Image : Type := {
  mode : string;
  size : nat * nat;
  getdata : list Pixel;
  info : list (string * list byte)
}.

(** The ink of [fill='black'] in an RGB image. *)
Definition black : Pixel := [x00; x00; x00].

(** Position [k] of the row-major data of an image [w] pixels wide. *)
Definition coords (w k : nat) : nat * nat := (k mod w, k / w).

(** [enumerate(l)] *)
Definition enumerate {A : Type} (l : list A) : list (nat * A) :=
  combine (seq 0 (List.length l)) l.

(** Whether position [k] of an image [w] pixels wide lies in [area]. *)
Definition inside (area : nat -> nat -> bool) (w k : nat) : bool :=
  let '(px, py) := coords w k in area px py.

(** Filling an area with one ink: a pixel inside the area takes the ink, the
    others keep their value; mode, size and info are untouched. *)
Definition fill_area (area : nat -> nat -> bool) (ink : Pixel) (im : Image)
  : Image :=
  let w := fst (size im) in
  {| mode := mode im;
     size := size im;
     getdata :=
       map (fun kp => if inside area w (fst kp) then ink else snd kp)
           (enumerate (getdata im));
     info := info im |}.

(** Every pixel of [im] that lies in [area] is black. *)
Definition blackened (area : nat -> nat -> bool) (im : Image) : Prop :=
  forall k p,
    nth_error (getdata im) k = Some p ->
    inside area (fst (size im)) k = true ->
    p = black.

End PIL.

(** ** services/image_redaction_service.py *)

Module ImageRedactionService.
Import PyBuiltins Models PIL.

Section Renderer.

Variable num : Type.
Variable add_num : num -> num -> num.

(** Pillow's entry points, as far as [redact_image] calls them. *)

(** [Image.open(io.BytesIO(b))] *)
Variable Image_open : list byte -> result Image.
(** [image.convert(mode)] *)
Variable Image_convert : Image -> string -> Image.
(** [image.save(buffer, format=...)] followed by [buffer.getvalue()] *)
Variable Image_save : Image -> string -> result (list byte).
(** The pixels that [ImageDraw.rectangle] fills for the corner list
    [[x0, y0, x1, y1]] in an image of the given size, or the exception it
    raises for that list. *)
Variable rectangle_area : list num -> nat * nat -> result (nat -> nat -> bool).

(** [if image.mode != 'RGB': image = image.convert('RGB')] *)
Definition as_rgb (image : Image) : Image :=
  if negb (String.eqb (mode image) "RGB") then Image_convert image "RGB"
  else image.

(** [draw.rectangle(rectangle, fill='black')] on the image under [draw]. *)
Definition draw_rectangle (image : Image) (rectangle : list num)
  : result Image :=
  area <- rectangle_area rectangle (size image) ;;
  Ok (fill_area area black image).

(** [[bbox.x, bbox.y, bbox.x + bbox.width, bbox.y + bbox.height]] *)
Definition rectangle_of (bbox : BoundingBox num) : list num :=
  [x bbox; y bbox;
   add_num (x bbox) (width bbox); add_num (y bbox) (height bbox)].

(** The loop over [redaction_areas]. *)
Definition draw_areas (image : Image) (redaction_areas : list (BoundingBox num))
  : result Image :=
  for_each redaction_areas (fun image bbox =>
    let rectangle := rectangle_of bbox in
    draw_rectangle image rectangle)
  image.

(** Every area of the list is drawable on [im] and already black there. *)
Definition painted (redaction_areas : list (BoundingBox num)) (im : Image)
  : Prop :=
  Forall (fun bbox =>
            exists area,
              rectangle_area (rectangle_of bbox) (size im) = Ok area
              /\ blackened area im)
         redaction_areas.

(** [ImageRedactionService.redact_image] *)
Definition redact_image
    (source_image_bytes : list byte) (redaction_areas : list (BoundingBox num))
  : result ImageRedactionResult :=
  image <- Image_open source_image_bytes ;;
  let image := as_rgb image in
  image <- draw_areas image redaction_areas ;;
  redacted_bytes <- Image_save image "PNG" ;;
  Ok {| result_content := redacted_bytes; content_type := "image/png" |}.

(** What the renderer expects of Pillow. *)

(** [convert] returns an image of the requested mode. *)
Definition convert_sets_mode : Prop :=
  forall im m, mode (Image_convert im m) = m.


(** PNG is lossless and stable for RGB images: a saved file opens as an RGB
    image of the same size with the same pixels, and saving that image again
    gives the same file. *)
Definition png_lossless : Prop :=
  forall im b,
    mode im = "RGB" ->
    Image_save im "PNG" = Ok b ->
    exists im',
      Image_open b = Ok im'
      /\ mode im' = "RGB"
      /\ size im' = size im
      /\ getdata im' = getdata im
      /\ Image_save im' "PNG" = Ok b.


End Renderer.

End ImageRedactionService.

(** ** services/pii_redaction_service.py *)

Module PiiRedactionService.
Import PyBuiltins Models PIL.

Section Orchestrator.

Variable num : Type.
Variable eqb_num : num -> num -> bool.

(** The three sub-services held by [PiiRedactionService]. *)
Variable extract_text_from_image
  : list byte -> result (string * list (DocumentWord num)).
Variable extract_pii : string -> result (PySet string).
Variable redact_image
  : list byte -> list (BoundingBox num) -> result ImageRedactionResult.

(** Step 3 of [redact_pii]: the areas handed to the renderer. *)
Definition redaction_areas_for
    (extracted_words : list (DocumentWord num)) (pii_values : PySet string)
  : result (list (BoundingBox num)) :=
  match pii_values with
  | [] => Ok []
  | _ :: _ =>
      words_containing_pii <-
        PiiDetectionService.get_words_containing_pii eqb_num
          extracted_words pii_values ;;
      Ok (map (@bounding_box num) words_containing_pii)
  end.

(** [PiiRedactionService.redact_pii] *)
Definition redact_pii (source_image_bytes : list byte)
  : result (list byte * string) :=
  extracted <- extract_text_from_image source_image_bytes ;;
  let '(full_text, extracted_words) := extracted in
  pii_values <- extract_pii full_text ;;
  redaction_areas <- redaction_areas_for extracted_words pii_values ;;
  result <- redact_image source_image_bytes redaction_areas ;;
  Ok (result_content result, content_type result).

End Orchestrator.

End PiiRedactionService.

(** ** A raw image format

    An uncompressed, self-delimiting image format and integer pixel
    coordinates: a concrete instance of the Pillow entry points on which the
    renderer can be evaluated.  A number is written in unary, a byte string
    with its length first. *)

Module RawCodec.
Import PIL.

Definition enc_nat (n : nat) : list byte := (repeat x01 n ++ [x00])%list.

Definition enc_bytes (l : list byte) : list byte :=
  (enc_nat (List.length l) ++ l)%list.

Definition enc_image (im : Image) : list byte :=
  (enc_bytes (list_byte_of_string (mode im))
   ++ enc_nat (fst (size im)) ++ enc_nat (snd (size im))
   ++ enc_nat (List.length (getdata im))
   ++ flat_map enc_bytes (getdata im))%list.

Fixpoint dec_nat (bs : list byte) : option (nat * list byte) :=
  match bs with
  | x00 :: r => Some (0, r)
  | x01 :: r =>
      match dec_nat r with
      | Some (n, r') => Some (S n, r')
      | None => None
      end
  | _ => None
  end.

Definition dec_bytes (bs : list byte) : option (list byte * list byte) :=
  match dec_nat bs with
  | Some (n, r) =>
      if (List.length r <? n)%nat then None else Some (firstn n r, skipn n r)
  | None => None
  end.

Fixpoint dec_many (n : nat) (bs : list byte)
  : option (list (list byte) * list byte) :=
  match n with
  | 0 => Some ([], bs)
  | S n' =>
      match dec_bytes bs with
      | Some (p, r) =>
          match dec_many n' r with
          | Some (ps, r') => Some (p :: ps, r')
          | None => None
          end
      | None => None
      end
  end.

Definition dec_image (bs : list byte) : option Image :=
  match dec_bytes bs with
  | Some (m, r1) =>
      match dec_nat r1 with
      | Some (w, r2) =>
          match dec_nat r2 with
          | Some (h, r3) =>
              match dec_nat r3 with
              | Some (n, r4) =>
                  match dec_many n r4 with
                  | Some (ps, _) =>
                      Some {| mode := string_of_list_byte m;
                              size := (w, h);
                              getdata := ps;
                              info := [] |}
                  | None => None
                  end
              | None => None
              end
          | None => None
          end
      | None => None
      end
  | None => None
  end.

Definition raw_open (bs : list byte) : result Image :=
  match dec_image bs with
  | Some im => Ok im
  | None => Raise (UnidentifiedImageError "cannot identify image file")
  end.

Definition raw_save (im : Image) (format : string) : result (list byte) :=
  Ok (enc_image im).

(** Conversion of one pixel to three bands: a grey level is repeated, an
    alpha band is dropped. *)
Definition to_rgb (p : Pixel) : Pixel :=
  match p with
  | [l] => [l; l; l]
  | [l; _] => [l; l; l]
  | [r; g; b; _] => [r; g; b]
  | _ => p
  end.

Definition raw_convert (im : Image) (m : string) : Image :=
  {| mode := m;
     size := size im;
     getdata := map to_rgb (getdata im);
     info := info im |}.

(** Integer corners: the pixels from [(x0, y0)] to [(x1, y1)], both
    included; corners in the wrong order are refused. *)
Definition raw_rectangle_area (rectangle : list Z) (sz : nat * nat)
  : result (nat -> nat -> bool) :=
  match rectangle with
  | [x0; y0; x1; y1] =>
      if ((x1 <? x0) || (y1 <? y0))%Z
      then Raise (ValueError "x1 must be greater than or equal to x0")
      else Ok (fun px py =>
                 ((x0 <=? Z.of_nat px) && (Z.of_nat px <=? x1)
                  && (y0 <=? Z.of_nat py) && (Z.of_nat py <=? y1))%Z)
  | _ => Raise (TypeError "wrong number of coordinates")
  end.

(** Collaborators that read no text and detect no PII. *)
Definition no_text (image_bytes : list byte)
  : result (string * list (Models.DocumentWord Z)) :=
  Ok ("", []).


(** [redact_image] over the raw format. *)
Definition raw_redact_image
  : list byte -> list (Models.BoundingBox Z)
    -> result Models.ImageRedactionResult :=
  ImageRedactionService.redact_image Z.add raw_open raw_convert raw_save
    raw_rectangle_area.

(** A 2x1 grey image with an alpha band, and a 2x2 RGB image. *)
Definition sample_la : Image :=
  {| mode := "LA"; size := (2, 1);
     getdata := [[x07; x80]; [xc8; xff]]; info := [] |}.

Definition sample_rgb : Image :=
  {| mode := "RGB"; size := (2, 2);
     getdata := [[x01; x02; x03]; [x04; x05; x06];
                 [x07; x08; x09]; [x0a; x0b; x0c]];
     info := [] |}.

(** The left column of an image two pixels high. *)
Definition sample_box : Models.BoundingBox Z :=
  {| Models.x := 0%Z; Models.y := 0%Z;
     Models.width := 0%Z; Models.height := 1%Z |}.

End RawCodec.

(** ** More [str] operations, used by the providers, the configuration and
    the HTTP layer *)

Module PyStrMore.

(** [s.split(sep)] for a separator of one character: the pieces between the
    occurrences of [sep]; there is always at least one piece. *)
Fixpoint split_sep (sep : ascii) (s : string) : list string :=
  match s with
  | EmptyString => [EmptyString]
  | String c r =>
      if Ascii.eqb c sep then EmptyString :: split_sep sep r
      else match split_sep sep r with
           | piece :: pieces => String c piece :: pieces
           | [] => [String c EmptyString]
           end
  end.

(** The text before and the text after the last occurrence of [sep]. *)
Fixpoint rpartition (sep : ascii) (s : string) : option (string * string) :=
  match s with
  | EmptyString => None
  | String c r =>
      match rpartition sep r with
      | Some (before, after) => Some (String c before, after)
      | None => if Ascii.eqb c sep then Some (EmptyString, r) else None
      end
  end.

(** [s.rsplit(sep, 1)] for a separator of one character. *)
Definition rsplit1 (sep : ascii) (s : string) : list string :=
  match rpartition sep s with
  | Some (before, after) => [before; after]
  | None => [s]
  end.

(** [sep.join(l)] *)
Fixpoint join (sep : string) (l : list string) : string :=
  match l with
  | [] => EmptyString
  | [a] => a
  | a :: l' => a ++ sep ++ join sep l'
  end.

(** [s in l] for a collection of strings. *)
Definition mem (s : string) (l : list string) : bool :=
  existsb (String.eqb s) l.

(** [c] does not occur in [s]. *)
Fixpoint free_of (c : ascii) (s : string) : Prop :=
  match s with
  | EmptyString => True
  | String a r => a <> c /\ free_of c r
  end.

(** No character of [s] is white space. *)
Fixpoint no_space (s : string) : Prop :=
  match s with
  | EmptyString => True
  | String a r => PyStr.isspace a = false /\ no_space r
  end.

End PyStrMore.

(** ** config.py *)

Module Config.
Import PyStrMore.

(** The four values that [Config] reads with [os.getenv] and that
    [validate] requires; [None] when the variable is not set. *)
Record Environment : Type := {
  AZURE_DOCUMENT_INTELLIGENCE_ENDPOINT : option string;
  AZURE_DOCUMENT_INTELLIGENCE_KEY : option string;
  AZURE_LANGUAGE_ENDPOINT : option string;
  AZURE_LANGUAGE_KEY : option string
}.

(** The elements of the set [ALLOWED_EXTENSIONS], for membership tests (the
    order of this list plays no part in them). *)
Definition ALLOWED_EXTENSIONS : list string :=
  ["png"; "jpg"; "jpeg"; "bmp"; "gif"; "tiff"].

(** The truth value of [value] in [if not value]. *)
Definition truthy (value : option string) : bool :=
  match value with
  | Some s => negb (PyStr.is_empty s)
  | None => false
  end.

Definition required_configs (env : Environment)
  : list (string * option string) :=
  [("AZURE_DOCUMENT_INTELLIGENCE_ENDPOINT",
    AZURE_DOCUMENT_INTELLIGENCE_ENDPOINT env);
   ("AZURE_DOCUMENT_INTELLIGENCE_KEY", AZURE_DOCUMENT_INTELLIGENCE_KEY env);
   ("AZURE_LANGUAGE_ENDPOINT", AZURE_LANGUAGE_ENDPOINT env);
   ("AZURE_LANGUAGE_KEY", AZURE_LANGUAGE_KEY env)].

(** [[name for name, value in required_configs if not value]] *)
Definition missing (env : Environment) : list string :=
  map fst (filter (fun nv => negb (truthy (snd nv))) (required_configs env)).

(** [Config.validate] *)
Definition validate (env : Environment) : result unit :=
  match missing env with
  | [] => Ok tt
  | names =>
      Raise (ValueError ("Missing required configuration: "
                         ++ join ", " names
                         ++ ". Please check your .env file."))
  end.

End Config.

(** ** app.py: the file-name filter *)

Module AppFilter.
Import PyBuiltins PyStrMore.

(** [allowed_file]: [and] evaluates the index [[1]] only when the name has a
    dot. *)
Definition allowed_file (filename : string) : result bool :=
  if PyStr.contains "." filename
  then
    extension <- getitem (rsplit1 "." filename) 1 ;;
    Ok (mem (PyStr.lower extension) Config.ALLOWED_EXTENSIONS)
  else Ok false.

End AppFilter.

(** ** services/text_extraction_service.py *)

Module TextExtractionService.
Import PyBuiltins Models.

Section Extraction.

Variable num : Type.
Variable lt_num : num -> num -> bool.
Variable sub_num : num -> num -> num.

(** What [extract_text_from_image] reads of the analysis result of Azure
    Document Intelligence: [result.content], [result.pages], [page.words]
    and, of a word, [polygon] (points with [x] and [y]), [content] and
    [confidence].  The fields carry a prefix here. *)
Record Point : Type := {
  point_x : num;
  point_y : num
}.

Record OcrWord : Type := {
  ocr_polygon : list Point;
  ocr_content : string;
  ocr_confidence : num
}.

Record DocumentPage : Type := {
  page_words : list OcrWord
}.

Record AnalyzeResult : Type := {
  analyzed_content : string;
  analyzed_pages : list DocumentPage
}.

(** [self.client.begin_analyze_document("prebuilt-read", b).result()] *)
Variable analyze_document : list byte -> result AnalyzeResult.

(** [[coord for point in word.polygon for coord in (point.x, point.y)]] *)
Definition polygon_of (word : OcrWord) : list num :=
  flat_map (fun point => [point_x point; point_y point]) (ocr_polygon word).

(** The body of the inner loop: the word is appended to [document_words]. *)
Definition append_word (document_words : list (DocumentWord num))
    (word : OcrWord) : result (list (DocumentWord num)) :=
  let polygon := polygon_of word in
  bounding_box <- from_polygon lt_num sub_num polygon ;;
  let document_word :=
    {| content := ocr_content word;
       bounding_box := bounding_box;
       confidence := ocr_confidence word |} in
  Ok (document_words ++ [document_word])%list.

(** [TextExtractionService.extract_text_from_image] *)
Definition extract_text_from_image (image_bytes : list byte)
  : result (string * list (DocumentWord num)) :=
  result <- analyze_document image_bytes ;;
  let full_text := analyzed_content result in
  document_words <-
    for_each (analyzed_pages result) (fun document_words page =>
      for_each (page_words page) append_word document_words)
    [] ;;
  Ok (full_text, document_words).

(** All the words of a result, page after page. *)
Definition all_words (result : AnalyzeResult) : list OcrWord :=
  flat_map page_words (analyzed_pages result).

(** A returned word that stands for a word of the result: same content, same
    confidence, and the box of its polygon. *)
Definition converted (ocr : OcrWord) (word : DocumentWord num) : Prop :=
  content word = ocr_content ocr
  /\ confidence word = ocr_confidence ocr
  /\ from_polygon lt_num sub_num (polygon_of ocr) = Ok (bounding_box word).

End Extraction.

End TextExtractionService.

(** ** providers/azure_pii_detection_provider.py *)

Module AzureProvider.

Record PiiEntity : Type := {
  text : string;
  category : string
}.

(** One element of the response of [recognize_pii_entities]: a result with
    its entities, or an error document. *)
Record PiiDocument : Type := {
  is_error : bool;
  entities : list PiiEntity
}.

Section Provider.

(** [self.client.recognize_pii_entities(documents, language=...)] *)
Variable recognize_pii_entities
  : list string -> string -> result (list PiiDocument).

(** [AzurePiiDetectionServiceProvider.detect_pii] *)
Definition detect_pii (text_content : string) : result (list string) :=
  response <- recognize_pii_entities [text_content] "en" ;;
  for_each response (fun pii_entities doc =>
    if negb (is_error doc)
    then for_each (entities doc) (fun pii_entities entity =>
           Ok (pii_entities ++ [text entity])%list)
         pii_entities
    else Ok pii_entities)
  [].

End Provider.

End AzureProvider.

(** ** providers/openai_pii_detection_provider.py *)

Module OpenAiProvider.
Import PyStrMore.

(** How [detect_pii] ends once [chat.completions.create] has returned: with
    [raise Exception("No response from OpenAI")] or with a list. *)
Inductive Detection : Type :=
| NoResponse
| Entities (pii_entities : list string).

(** [[line.strip() for line in response_text.strip().split('\n')
      if line.strip()]] *)
Definition parse_lines (response_text : string) : list string :=
  map PyStr.strip
    (filter (fun line => negb (PyStr.is_empty (PyStr.strip line)))
       (split_sep "010" (PyStr.strip response_text))).

(** [detect_pii] from the response on: [choices] holds the
    [message.content] of each choice, [None] when the message has none. *)
Definition detect_pii_of_response (choices : list (option string))
  : Detection :=
  match choices with
  | [] => NoResponse
  | response_text :: _ =>
      match response_text with
      | None => Entities []
      | Some EmptyString => Entities []
      | Some response_text => Entities (parse_lines response_text)
      end
  end.

End OpenAiProvider.

(** ** app.py: the [/redact-pii] endpoint *)

Module App.
Import PyStrMore AppFilter.

(** An uploaded file: its name and what [file.read()] returns. *)
Record FileStorage : Type := {
  filename : string;
  stream : list byte
}.

(** A response body: [jsonify({'error': message})] or the attachment of
    [send_file]. *)
Inductive Body : Type :=
| JsonError (message : string)
| Attachment (data : list byte) (mimetype : string) (download_name : string).

Definition Response : Type := (Body * nat)%type.

(** [str(e)] *)
Definition str_of_exception (e : PyException) : string :=
  match e with
  | ValueError msg => msg
  | TypeError msg => msg
  | IndexError msg => msg
  | UnidentifiedImageError msg => msg
  end.

(** [request.files['file']], [None] when ['file' not in request.files]. *)
Fixpoint lookup (key : string) (files : list (string * FileStorage))
  : option FileStorage :=
  match files with
  | [] => None
  | (k, f) :: files' => if String.eqb k key then Some f else lookup key files'
  end.

Section Endpoint.

(** [get_redaction_service().redact_pii] *)
Variable redact_pii_service : list byte -> result (list byte * string).
(** [werkzeug.utils.secure_filename] *)
Variable secure_filename : string -> string.
(** The elements of [Config.ALLOWED_EXTENSIONS] in the order in which this
    process iterates the set, which the source does not fix. *)
Variable listed_extensions : list string.

(** The [except Exception] clause of the endpoint. *)
Definition internal_error (e : PyException) : Response :=
  (JsonError ("An error occurred: " ++ str_of_exception e), 500).

(** The [redact_pii] view; [files] is [request.files]. *)
Definition redact_pii (files : list (string * FileStorage)) : Response :=
  match lookup "file" files with
  | None => (JsonError "No file part in the request", 400)
  | Some file =>
      if String.eqb (filename file) ""
      then (JsonError "No file selected", 400)
      else
        match allowed_file (filename file) with
        | Raise e => internal_error e
        | Ok false =>
            (JsonError ("File type not allowed. Allowed types: "
                        ++ join ", " listed_extensions), 400)
        | Ok true =>
            let file_content := stream file in
            match file_content with
            | [] => (JsonError "Empty file", 400)
            | _ :: _ =>
                match redact_pii_service file_content with
                | Raise e => internal_error e
                | Ok (redacted_image_bytes, content_type) =>
                    (Attachment redacted_image_bytes content_type
                       (secure_filename (filename file)), 200)
                end
            end
        end
  end.

End Endpoint.

End App.

(** ** Sample inputs on integer coordinates *)

Module Samples.
Import Models TextExtractionService.

Definition pt (px py : Z) : Point Z := {| point_x := px; point_y := py |}.

(** Two words of one page, each with the four corners of its outline. *)
Definition sample_label : OcrWord Z :=
  {| ocr_polygon := [pt 10 10; pt 50 10; pt 50 22; pt 10 22];
     ocr_content := "SSN:";
     ocr_confidence := 1%Z |}.

Definition sample_number : OcrWord Z :=
  {| ocr_polygon := [pt 60 11; pt 160 9; pt 161 21; pt 61 23];
     ocr_content := "123-45-6789";
     ocr_confidence := 1%Z |}.

(** A word whose outline has three points only. *)
Definition sample_triangle : OcrWord Z :=
  {| ocr_polygon := [pt 0 0; pt 4 0; pt 0 3];
     ocr_content := "x";
     ocr_confidence := 1%Z |}.

Definition sample_analysis : AnalyzeResult Z :=
  {| analyzed_content := "SSN: 123-45-6789";
     analyzed_pages := [{| page_words := [sample_label; sample_number] |}] |}.

Definition sample_bad_analysis : AnalyzeResult Z :=
  {| analyzed_content := "SSN: x";
     analyzed_pages :=
       [{| page_words := [sample_label] |};
        {| page_words := [sample_triangle; sample_number] |}] |}.

Definition sample_analyze (image_bytes : list byte)
  : result (AnalyzeResult Z) := Ok sample_analysis.

Definition sample_bad_analyze (image_bytes : list byte)
  : result (AnalyzeResult Z) := Ok sample_bad_analysis.

(** A detector that finds the number of the sample text. *)
Definition sample_detect (text_content : string) : result (list string) :=
  Ok ["123-45-6789"].

(** An Azure client that answers with one error document. *)
Definition sample_error_response (documents : list string) (language : string)
  : result (list AzureProvider.PiiDocument) :=
  Ok [{| AzureProvider.is_error := true; AzureProvider.entities := [] |}].

(** The top right pixel. *)
Definition sample_corner : BoundingBox Z :=
  {| x := 1%Z; y := 0%Z; width := 0%Z; height := 0%Z |}.

(** The 2x2 RGB sample of the raw format with its left column and its top
    right pixel black, as a rendering result. *)
Definition sample_redacted : ImageRedactionResult :=
  {| result_content :=
       RawCodec.enc_image
         {| PIL.mode := "RGB"; PIL.size := (2, 2);
            PIL.getdata :=
              [PIL.black; PIL.black; PIL.black; [x0a; x0b; x0c]];
            PIL.info := [] |};
     content_type := "image/png" |}.

End Samples.

(** ** Words that match no PII value *)

Module Matching.
Import Models PiiDetectionService.

(** No word passes the test for any component of any PII value. *)
Definition no_match {num : Type} (words : list (DocumentWord num))
    (pii_values : list string) : Prop :=
  forall pii_value component word,
    In pii_value pii_values ->
    In component (pii_components pii_value) ->
    In word words ->
    matches component word = false.

End Matching.

(** ** The union of areas *)

Module Areas.

(** The pixels that lie in at least one of the areas. *)
Definition union (areas : list (nat -> nat -> bool)) (px py : nat) : bool :=
  existsb (fun area => area px py) areas.

End Areas.

(** ** The matching loops under any [__eq__] / [__hash__] protocol

    [set.add] looks up [__hash__] and [__eq__] on the class of its argument.
    Here the loops of [get_words_containing_pii] and step 3 of [redact_pii]
    are written once more with that protocol as a parameter; with the
    protocol of the [DocumentWord] dataclass they are the two functions
    above. *)

Module MatcherLoops.
Import PyBuiltins Models PiiDetectionService.

Section Protocol.

Variable num : Type.
Variable protocol : PyHashable (DocumentWord num).



End Protocol.





End MatcherLoops.

(** * Properties *)

(** ** The error monad and loops *)

Lemma bind_ok_inv {A B : Type} (m : result A) (k : A -> result B) (b : B) :
  bind m k = Ok b -> exists a, m = Ok a /\ k a = Ok b.
Proof.
  destruct m as [a|e]; simpl; [intros H; now exists a | discriminate].
Qed.

(** A property of the loop state that every successful iteration keeps holds
    when the loop ends normally. *)
Lemma for_each_invariant {A S : Type} (P : S -> Prop) (l : list A)
    (body : S -> A -> result S) :
  (forall s a s', In a l -> P s -> body s a = Ok s' -> P s') ->
  forall s s', P s -> for_each l body s = Ok s' -> P s'.
Proof.
  induction l as [|a l IH]; intros Hbody s s' Hs Hrun; simpl in Hrun.
  - now injection Hrun as <-.
  - apply bind_ok_inv in Hrun as [s1 [H1 H2]].
    apply IH with (s := s1); auto with datatypes.
    + intros t b t' Hb. apply Hbody. now right.
    + apply (Hbody s a); auto with datatypes.
Qed.

(** A loop whose body either raises [e], when [p] holds of the item, or
    leaves the state alone. *)
Lemma for_each_raise_or_skip {A S : Type} (p : A -> bool) (e : PyException)
    (l : list A) (body : S -> A -> result S) :
  (forall s a, body s a = if p a then Raise e else Ok s) ->
  forall s, for_each l body s = if existsb p l then Raise e else Ok s.
Proof.
  intros Hbody. induction l as [|a l IH]; intros s; simpl; [reflexivity|].
  rewrite Hbody. destruct (p a); simpl; [reflexivity | apply IH].
Qed.

(** ** Strings *)

Module PyStrFacts.
Import PyStr.

Lemma startswith_spec p s :
  startswith p s = true <-> exists post, s = p ++ post.
Proof.
  revert s; induction p as [|a p IH]; intros s; simpl.
  - split; [intros _; now exists s | reflexivity].
  - destruct s as [|b s].
    + split; [discriminate | intros [post H]; discriminate].
    + rewrite andb_true_iff, Ascii.eqb_eq, IH. split.
      * intros [-> [post ->]]. now exists post.
      * intros [post H]. injection H as -> ->.
        split; [reflexivity | now exists post].
Qed.

Lemma contains_spec needle hay :
  contains needle hay = true <-> Substring needle hay.
Proof.
  unfold Substring. induction hay as [|b hay IH].
  - simpl. rewrite orb_false_r, startswith_spec. split.
    + intros [post H]. now exists "", post.
    + intros [[|c pre] [post H]]; [now exists post | discriminate].
  - cbn [contains]. rewrite orb_true_iff, startswith_spec, IH. split.
    + intros [[post H] | [pre [post H]]].
      * now exists "", post.
      * exists (String b pre), post. simpl. now rewrite H.
    + intros [[|c pre] [post H]].
      * left. now exists post.
      * right. simpl in H. injection H as -> ->. now exists pre, post.
Qed.

Lemma contains_empty hay : contains "" hay = true.
Proof. destruct hay; reflexivity. Qed.

Lemma contains_refl s : contains s s = true.
Proof.
  apply contains_spec. exists "", "". simpl.
  induction s as [|c s IH]; simpl; [reflexivity | now rewrite <- IH].
Qed.

End PyStrFacts.

(** ** The matcher *)

Module MatcherFacts.
Import PyBuiltins Models PiiDetectionService.

Section Matcher.

Variable num : Type.
Variable eqb_num : num -> num -> bool.

(** An element stored by [add] is the added one or was there before. *)
Lemma set_add_incl {A : Type} `{PyHashable A} (s s' : PySet A) (a : A) :
  set_add s a = Ok s' -> incl s' (a :: s).
Proof.
  unfold set_add. intros Hadd.
  apply bind_ok_inv in Hadd as [h [_ Hs']].
  destruct (existsb (py_eq a) s); injection Hs' as <-; intros v Hv.
  - now right.
  - apply in_app_or in Hv as [Hv | [<- | []]]; [now right | now left].
Qed.

(** Adding a [DocumentWord] to a set raises. *)
Lemma set_add_word (acc : PySet (DocumentWord num)) (word : DocumentWord num) :
  set_add (H := word_hashable eqb_num) acc word = Raise unhashable_DocumentWord.
Proof. reflexivity. Qed.

(** The whole function in closed form: it raises as soon as one test
    succeeds, and otherwise returns the empty list. *)
Lemma get_words_closed_form
    (words : list (DocumentWord num)) (pii_values : list string) :
  get_words_containing_pii eqb_num words pii_values =
  if any_match words pii_values then Raise unhashable_DocumentWord else Ok [].
Proof.
  unfold get_words_containing_pii, any_match.
  rewrite for_each_raise_or_skip
    with (e := unhashable_DocumentWord)
         (p := fun pii_value =>
                 existsb (fun word =>
                   existsb (fun component => matches component word)
                     (pii_components pii_value)) words).
  - now destruct (existsb _ pii_values).
  - intros acc pii_value.
    apply for_each_raise_or_skip. intros acc' word.
    apply for_each_raise_or_skip. intros acc'' component.
    now destruct (matches component word).
Qed.

Lemma any_match_spec
    (words : list (DocumentWord num)) (pii_values : list string) :
  any_match words pii_values = true <->
  exists pii_value word component,
    In pii_value pii_values /\ In word words
    /\ In component (pii_components pii_value)
    /\ matches component word = true.
Proof.
  unfold any_match. rewrite existsb_exists. split.
  - intros [p [Hp H]]. apply existsb_exists in H as [w [Hw H]].
    apply existsb_exists in H as [c [Hc H]]. now exists p, w, c.
  - intros [p [w [c [Hp [Hw [Hc H]]]]]]. exists p. split; [assumption|].
    apply existsb_exists. exists w. split; [assumption|].
    apply existsb_exists. now exists c.
Qed.

(** Whatever the hashing of words does, the accumulated set only ever holds
    input words. *)
Lemma get_words_incl
    (words : list (DocumentWord num)) (pii_values : list string)
    (l : list (DocumentWord num)) :
  get_words_containing_pii eqb_num words pii_values = Ok l -> incl l words.
Proof.
  unfold get_words_containing_pii. intros Hrun.
  apply bind_ok_inv in Hrun as [acc [Hloop Hret]].
  injection Hret as <-. unfold list_of_set.
  revert Hloop.
  apply for_each_invariant with (P := fun acc => incl acc words);
    [| intros v []].
  intros s1 pii_value s1' _ Hs1.
  apply for_each_invariant with (P := fun acc => incl acc words);
    [| assumption].
  intros s2 word s2' Hword Hs2.
  apply for_each_invariant with (P := fun acc => incl acc words);
    [| assumption].
  intros s3 component s3' _ Hs3 Hbody.
  destruct (matches component word).
  - apply set_add_incl in Hbody. intros v Hv.
    destruct (Hbody v Hv) as [<- | Hin]; auto.
  - now injection Hbody as <-.
Qed.

(** C1.  The matching step is not total: [get_words_containing_pii] raises
    [TypeError] (unhashable [DocumentWord]) exactly when some word passes the
    substring test for some PII component, and returns the empty list
    otherwise; for the one word "Jane" and the PII value "Jane" it raises. *)
Theorem get_words_containing_pii_raises_on_match :
  (forall (words : list (DocumentWord num)) (pii_values : list string),
     get_words_containing_pii eqb_num words pii_values =
     if any_match words pii_values
     then Raise unhashable_DocumentWord else Ok [])
  /\ (forall (box : BoundingBox num) (conf : num),
        get_words_containing_pii eqb_num [mk_word "Jane" box conf] ["Jane"]
        = Raise unhashable_DocumentWord).
Proof.
  split; [apply get_words_closed_form | reflexivity].
Qed.

(** C2.  For the PII value "Jane Smith" and the words "Jane", "Smith",
    "Street", the substring test singles out exactly "Jane" and "Smith", but
    [get_words_containing_pii] does not return them: the first [add]
    raises [TypeError]. *)
Theorem get_words_jane_smith_raises :
  forall (b1 b2 b3 : BoundingBox num) (c1 c2 c3 : num),
    let words :=
      [mk_word "Jane" b1 c1; mk_word "Smith" b2 c2; mk_word "Street" b3 c3] in
    filter (fun word =>
              existsb (fun component => matches component word)
                (pii_components "Jane Smith")) words
    = [mk_word "Jane" b1 c1; mk_word "Smith" b2 c2]
    /\ get_words_containing_pii eqb_num words ["Jane Smith"]
       = Raise unhashable_DocumentWord.
Proof.
  intros. split; reflexivity.
Qed.

(** C3.  The word "John" passes the test for both components of the PII
    value "John Johnson"; [get_words_containing_pii] does not return it
    once: the first [add] raises [TypeError]. *)
Theorem get_words_two_components_raises :
  forall (box : BoundingBox num) (conf : num),
    let word := mk_word "John" box conf in
    pii_components "John Johnson" = ["John"; "Johnson"]
    /\ matches "John" word = true
    /\ matches "Johnson" word = true
    /\ get_words_containing_pii eqb_num [word] ["John Johnson"]
       = Raise unhashable_DocumentWord.
Proof.
  intros. repeat split; reflexivity.
Qed.

(** C6.  The test applied to a word and a PII component succeeds exactly when
    the lower-cased word content occurs in the lower-cased component or the
    lower-cased component occurs in the lower-cased word content; the
    component "john" matches the word "JOHN". *)
Theorem matches_iff_bidirectional_substring :
  (forall (component : string) (word : DocumentWord num),
     matches component word = true <->
     PyStr.Substring (PyStr.lower (content word)) (PyStr.lower component)
     \/ PyStr.Substring (PyStr.lower component) (PyStr.lower (content word)))
  /\ (forall (box : BoundingBox num) (conf : num),
        matches "john" (mk_word "JOHN" box conf) = true).
Proof.
  split; [| reflexivity].
  intros component word. unfold matches.
  rewrite orb_true_iff, !PyStrFacts.contains_spec. tauto.
Qed.

End Matcher.

End MatcherFacts.

(** ** [min], [max] and list comprehensions *)

Module BuiltinFacts.
Import PyBuiltins.

Section MinOrder.

Variable A : Type.
Variable lt : A -> A -> bool.
Hypothesis lt_irrefl : forall a, lt a a = false.
Hypothesis lt_trans :
  forall a b c, lt a b = true -> lt b c = true -> lt a c = true.

Lemma fold_min_le_start (r : list A) (s : A) :
  fold_left (min_step lt) r s = s
  \/ lt (fold_left (min_step lt) r s) s = true.
Proof.
  revert s. induction r as [|i r IH]; intros s; simpl; [now left|].
  destruct (IH (min_step lt s i)) as [E | L];
    unfold min_step in *; destruct (lt i s) eqn:His.
  - right. now rewrite E.
  - now left.
  - right. now apply lt_trans with i.
  - now right.
Qed.

Lemma fold_min_start_not_below (r : list A) (s : A) :
  lt s (fold_left (min_step lt) r s) = false.
Proof.
  destruct (fold_min_le_start r s) as [-> | L]; [apply lt_irrefl|].
  destruct (lt s (fold_left (min_step lt) r s)) eqn:E; [|reflexivity].
  rewrite <- (lt_irrefl s). symmetry. now apply lt_trans with (2 := L).
Qed.

Lemma fold_min_in (r : list A) (s : A) :
  In (fold_left (min_step lt) r s) (s :: r).
Proof.
  revert s. induction r as [|i r IH]; intros s; simpl; [now left|].
  destruct (IH (min_step lt s i)) as [E | Hin]; [| now right; right].
  rewrite <- E. unfold min_step. destruct (lt i s); auto.
Qed.

Lemma fold_min_lower (r : list A) (s v : A) :
  In v (s :: r) -> lt v (fold_left (min_step lt) r s) = false.
Proof.
  intros [<- | Hin]; [apply fold_min_start_not_below|].
  revert s. induction r as [|i r IH]; intros s; [destruct Hin|].
  simpl. destruct Hin as [<- | Hin]; [| now apply IH].
  replace (min_step lt s i) with (if lt i s then i else s) by reflexivity.
  destruct (lt i s) eqn:His.
  - apply fold_min_start_not_below.
  - destruct (fold_min_le_start r s) as [-> | L]; [assumption|].
    destruct (lt i (fold_left (min_step lt) r s)) eqn:E; [|reflexivity].
    rewrite <- His. symmetry. now apply lt_trans with (2 := L).
Qed.

Lemma py_min_least (l : list A) (m : A) :
  py_min lt l = Ok m -> least lt m l.
Proof.
  destruct l as [|s r]; simpl; [discriminate|].
  intros H. injection H as <-. split.
  - apply fold_min_in.
  - intros v. apply fold_min_lower.
Qed.

End MinOrder.

Section MaxOrder.

Variable A : Type.
Variable lt : A -> A -> bool.
Hypothesis lt_irrefl : forall a, lt a a = false.
Hypothesis lt_trans :
  forall a b c, lt a b = true -> lt b c = true -> lt a c = true.

(** [max] is [min] for the converse order. *)
Lemma max_step_converse (cur item : A) :
  max_step lt cur item = min_step (fun a b => lt b a) cur item.
Proof. reflexivity. Qed.

Lemma py_max_greatest (l : list A) (m : A) :
  py_max lt l = Ok m -> greatest lt m l.
Proof.
  destruct l as [|s r]; simpl; [discriminate|].
  intros H. injection H as <-.
  assert (Hmin : least (fun a b => lt b a)
                   (fold_left (min_step (fun a b => lt b a)) r s) (s :: r)).
  { apply py_min_least; [assumption | | reflexivity].
    intros a b c Hab Hbc. now apply lt_trans with b. }
  exact Hmin.
Qed.

End MaxOrder.

Section Comprehension.

Variable A : Type.

Lemma comprehension_getitem (l : list A) (idx : list nat) (out : list A) :
  Forall2 (fun i a => nth_error l i = Some a) idx out ->
  comprehension (getitem l) idx = Ok out.
Proof.
  induction 1 as [|i a idx out Hi _ IH]; simpl; [reflexivity|].
  unfold getitem at 1. now rewrite Hi, IH.
Qed.

Lemma Forall2_indices (R : nat -> A -> Prop) (f : nat -> nat) (out : list A) :
  forall start,
    (forall k a, nth_error out k = Some a -> R (f (start + k)) a) ->
    Forall2 R (map f (seq start (List.length out))) out.
Proof.
  induction out as [|a out IH]; intros start H; simpl; constructor.
  - rewrite <- (Nat.add_0_r start). now apply H.
  - apply IH. intros k b Hk.
    replace (S start + k) with (start + S k) by lia. now apply H.
Qed.

End Comprehension.

End BuiltinFacts.

(** ** The geometry model *)

Module GeometryFacts.
Import PyBuiltins Models BuiltinFacts.

Section Polygon.

Variable num : Type.
Variable lt_num : num -> num -> bool.
Variable sub_num : num -> num -> num.

Lemma length_flatten (pts : list (num * num)) (tail : list num) :
  List.length (flatten pts ++ tail)%list
  = 2 * List.length pts + List.length tail.
Proof.
  induction pts as [|p pts IH]; simpl; [reflexivity|]. rewrite IH. lia.
Qed.

Lemma nth_flatten_x (pts : list (num * num)) (tail : list num) :
  forall k p, nth_error pts k = Some p ->
    nth_error (flatten pts ++ tail)%list (k * 2) = Some (fst p).
Proof.
  induction pts as [|q pts IH]; intros [|k] p H; try discriminate.
  - now injection H as ->.
  - simpl in *. now apply IH.
Qed.

Lemma nth_flatten_y (pts : list (num * num)) (tail : list num) :
  forall k p, nth_error pts k = Some p ->
    nth_error (flatten pts ++ tail)%list (1 + k * 2) = Some (snd p).
Proof.
  induction pts as [|q pts IH]; intros [|k] p H; try discriminate.
  - now injection H as ->.
  - simpl in *. now apply IH.
Qed.

Lemma nth_flatten_tail (pts : list (num * num)) (tail : list num) (j : nat) :
  nth_error (flatten pts ++ tail)%list (List.length pts * 2 + j)
  = nth_error tail j.
Proof.
  induction pts as [|q pts IH]; simpl; [reflexivity | exact IH].
Qed.

(** Every list of scalars is a list of pairs followed by at most one
    dangling scalar. *)
Lemma polygon_pairs (polygon : list num) :
  exists pts tail,
    polygon = (flatten pts ++ tail)%list /\ List.length tail <= 1.
Proof.
  assert (H : forall n (l : list num), List.length l <= n ->
            exists pts tail,
              l = (flatten pts ++ tail)%list /\ List.length tail <= 1).
  { induction n as [|n IH]; intros l Hl.
    - destruct l; [| simpl in Hl; lia].
      exists [], []. split; [reflexivity | simpl; lia].
    - destruct l as [|a [|b l]].
      + exists [], []. split; [reflexivity | simpl; lia].
      + exists [], [a]. split; [reflexivity | simpl; lia].
      + destruct (IH l) as [pts [tail [-> Htail]]]; [simpl in Hl; lia|].
        exists ((a, b) :: pts), tail. split; [reflexivity | assumption]. }
  now apply H with (n := List.length polygon).
Qed.

(** The x coordinates of the source: the first components of the pairs and
    then the dangling scalar, if any. *)
Lemma x_coords_of (pts : list (num * num)) (tail : list num) :
  List.length tail <= 1 ->
  comprehension (getitem (flatten pts ++ tail)%list)
    (range 0 (len (flatten pts ++ tail)%list) 2)
  = Ok (map fst pts ++ tail)%list.
Proof.
  intros Htail. apply comprehension_getitem.
  unfold range, len. rewrite length_flatten.
  replace ((2 * List.length pts + List.length tail - 0 + (2 - 1)) / 2)
    with (List.length (map fst pts ++ tail)%list).
  2:{ rewrite length_app, length_map.
      apply Nat.div_unique with (r := 1 - List.length tail); lia. }
  apply Forall2_indices. intros k a Hk. simpl.
  destruct (Nat.lt_ge_cases k (List.length pts)) as [Hlt | Hge].
  - rewrite nth_error_app1 in Hk by now rewrite length_map.
    rewrite nth_error_map in Hk.
    destruct (nth_error pts k) as [p|] eqn:Hp; [| discriminate].
    injection Hk as <-. now apply nth_flatten_x.
  - rewrite nth_error_app2 in Hk by now rewrite length_map.
    rewrite length_map in Hk.
    replace (k * 2) with (List.length pts * 2 + (k - List.length pts) * 2)
      by lia.
    rewrite nth_flatten_tail.
    destruct (k - List.length pts) as [|j]; [exact Hk|].
    destruct tail as [|t [|t' tail]]; simpl in Htail; try lia;
      destruct j; discriminate.
Qed.

(** The y coordinates of the source: the second components of the pairs; a
    dangling scalar is not among them. *)
Lemma y_coords_of (pts : list (num * num)) (tail : list num) :
  List.length tail <= 1 ->
  comprehension (getitem (flatten pts ++ tail)%list)
    (range 1 (len (flatten pts ++ tail)%list) 2)
  = Ok (map snd pts).
Proof.
  intros Htail. apply comprehension_getitem.
  unfold range, len. rewrite length_flatten.
  replace ((2 * List.length pts + List.length tail - 1 + (2 - 1)) / 2)
    with (List.length (map snd pts)).
  2:{ rewrite length_map.
      apply Nat.div_unique
        with (r := 2 * List.length pts + List.length tail - 1 + 1
                   - 2 * List.length pts); lia. }
  apply Forall2_indices. intros k a Hk. simpl.
  rewrite nth_error_map in Hk.
  destruct (nth_error pts k) as [p|] eqn:Hp; [| discriminate].
  injection Hk as <-. now apply (nth_flatten_y pts tail k).
Qed.

(** [from_polygon] on a list that passes the length test, with the
    comprehensions evaluated. *)
Lemma from_polygon_accepted (pts : list (num * num)) (tail : list num) :
  List.length tail <= 1 ->
  8 <= List.length (flatten pts ++ tail)%list ->
  exists x0 y0 x1 y1,
    py_min lt_num (map fst pts ++ tail)%list = Ok x0
    /\ py_min lt_num (map snd pts) = Ok y0
    /\ py_max lt_num (map fst pts ++ tail)%list = Ok x1
    /\ py_max lt_num (map snd pts) = Ok y1
    /\ from_polygon lt_num sub_num (flatten pts ++ tail)%list
       = Ok {| x := x0; y := y0;
               width := sub_num x1 x0; height := sub_num y1 y0 |}.
Proof.
  intros Htail Hlen. unfold from_polygon.
  replace (len (flatten pts ++ tail)%list <? 8)%nat with false
    by (symmetry; apply Nat.ltb_ge; exact Hlen).
  rewrite x_coords_of, y_coords_of by assumption.
  rewrite length_flatten in Hlen.
  destruct pts as [|[px py] pts]; [simpl in Hlen; lia|].
  simpl. do 4 eexists. repeat split.
Qed.

Lemma from_polygon_rejected (polygon : list num) :
  List.length polygon < 8 ->
  from_polygon lt_num sub_num polygon = Raise polygon_too_short.
Proof.
  intros Hlen. unfold from_polygon, len.
  now replace (List.length polygon <? 8)%nat with true
    by (symmetry; apply Nat.ltb_lt; exact Hlen).
Qed.

Lemma half_length (pts : list (num * num)) (tail : list num) :
  List.length tail <= 1 ->
  List.length (flatten pts ++ tail)%list / 2 = List.length pts.
Proof.
  intros Htail. rewrite length_flatten. symmetry.
  apply Nat.div_unique with (r := List.length tail); lia.
Qed.

(** C5.  [from_polygon] raises exactly when the list holds fewer than 4
    complete pairs, and the exception is then the [ValueError] of the length
    test (the spec's InvalidGeometry); with 4 or more pairs it returns a
    box. *)
Theorem from_polygon_fails_iff_fewer_than_4_pairs (polygon : list num) :
  (forall e,
     from_polygon lt_num sub_num polygon = Raise e <->
     e = polygon_too_short /\ List.length polygon / 2 < 4)
  /\ ((exists b, from_polygon lt_num sub_num polygon = Ok b) <->
      4 <= List.length polygon / 2).
Proof.
  destruct (polygon_pairs polygon) as [pts [tail [-> Htail]]].
  rewrite half_length by assumption.
  destruct (Nat.lt_ge_cases (List.length pts) 4) as [Hlt | Hge].
  - assert (Hrej : from_polygon lt_num sub_num (flatten pts ++ tail)%list
                   = Raise polygon_too_short).
    { apply from_polygon_rejected. rewrite length_flatten. lia. }
    rewrite Hrej. split.
    + intros e. split.
      * intros H. injection H as <-. now split.
      * now intros [-> _].
    + split; [intros [b Hb]; discriminate | lia].
  - destruct (from_polygon_accepted pts tail Htail)
      as [x0 [y0 [x1 [y1 [_ [_ [_ [_ Hbox]]]]]]]].
    { rewrite length_flatten. lia. }
    rewrite Hbox. split.
    + intros e. split; [discriminate | lia].
    + split; [intros _; exact Hge | intros _; eauto].
Qed.

(** C10.  The length test counts scalars: every list of at least 8 scalars is
    accepted, and when the list is a sequence of pairs followed by one
    dangling scalar, that scalar takes part in the [min] and [max] of the x
    coordinates (and not of the y coordinates). *)
Theorem from_polygon_counts_scalars (polygon : list num) :
  8 <= List.length polygon ->
  (exists b, from_polygon lt_num sub_num polygon = Ok b)
  /\ (forall pts t,
        polygon = (flatten pts ++ [t])%list ->
        exists b max_x max_y,
          from_polygon lt_num sub_num polygon = Ok b
          /\ py_min lt_num (map fst pts ++ [t])%list = Ok (x b)
          /\ py_max lt_num (map fst pts ++ [t])%list = Ok max_x
          /\ width b = sub_num max_x (x b)
          /\ py_min lt_num (map snd pts) = Ok (y b)
          /\ py_max lt_num (map snd pts) = Ok max_y
          /\ height b = sub_num max_y (y b)).
Proof.
  intros Hlen. split.
  - destruct (polygon_pairs polygon) as [pts [tail [-> Htail]]].
    destruct (from_polygon_accepted pts tail Htail Hlen)
      as [x0 [y0 [x1 [y1 [_ [_ [_ [_ Hbox]]]]]]]].
    eauto.
  - intros pts t ->.
    destruct (from_polygon_accepted pts [t] (le_n 1) Hlen)
      as [x0 [y0 [x1 [y1 [Hx0 [Hy0 [Hx1 [Hy1 Hbox]]]]]]]].
    exists {| x := x0; y := y0;
              width := sub_num x1 x0; height := sub_num y1 y0 |}, x1, y1.
    simpl. auto 10.
Qed.

Hypothesis lt_irrefl : forall a, lt_num a a = false.
Hypothesis lt_trans :
  forall a b c, lt_num a b = true -> lt_num b c = true -> lt_num a c = true.

(** C4.  For a list of at least 4 (x, y) pairs, written out as alternating
    scalars, [from_polygon] returns the box whose [x] is a minimum of the x
    coordinates, whose [y] is a minimum of the y coordinates, whose [width]
    is a maximum of the x coordinates minus [x] and whose [height] is a
    maximum of the y coordinates minus [y]. *)
Theorem from_polygon_is_min_max (pts : list (num * num)) :
  4 <= List.length pts ->
  exists b,
    from_polygon lt_num sub_num (flatten pts) = Ok b
    /\ least lt_num (x b) (map fst pts)
    /\ least lt_num (y b) (map snd pts)
    /\ (exists max_x,
          greatest lt_num max_x (map fst pts)
          /\ width b = sub_num max_x (x b))
    /\ (exists max_y,
          greatest lt_num max_y (map snd pts)
          /\ height b = sub_num max_y (y b)).
Proof.
  intros Hlen.
  destruct (from_polygon_accepted pts [] (Nat.le_0_l 1))
    as [x0 [y0 [x1 [y1 [Hx0 [Hy0 [Hx1 [Hy1 Hbox]]]]]]]].
  { rewrite length_flatten. simpl. lia. }
  rewrite !app_nil_r in *.
  exists {| x := x0; y := y0;
            width := sub_num x1 x0; height := sub_num y1 y0 |}.
  simpl. split; [exact Hbox|].
  split; [now apply py_min_least|].
  split; [now apply py_min_least|].
  split; [exists x1 | exists y1]; (split; [now apply py_max_greatest | reflexivity]).
Qed.

End Polygon.

(** On integer coordinates: the rectangle with corners (1, 2) and (5, 4). *)
Lemma from_polygon_is_min_max_witness :
  exists b,
    from_polygon Z.ltb Z.sub
      (flatten [(1, 2); (5, 2); (5, 4); (1, 4)]%Z) = Ok b
    /\ least Z.ltb (x b) [1; 5; 5; 1]%Z
    /\ least Z.ltb (y b) [2; 2; 4; 4]%Z
    /\ (exists max_x,
          greatest Z.ltb max_x [1; 5; 5; 1]%Z
          /\ width b = (max_x - x b)%Z)
    /\ (exists max_y,
          greatest Z.ltb max_y [2; 2; 4; 4]%Z
          /\ height b = (max_y - y b)%Z).
Proof.
  apply (@from_polygon_is_min_max Z Z.ltb Z.sub Z.ltb_irrefl).
  - intros a b c Hab Hbc. apply Z.ltb_lt in Hab, Hbc. apply Z.ltb_lt. lia.
  - simpl. lia.
Defined.

(** Nine integer scalars: the dangling 9 widens the box. *)
Lemma from_polygon_counts_scalars_witness :
  exists b,
    from_polygon Z.ltb Z.sub [1; 2; 5; 2; 5; 4; 1; 4; 9]%Z = Ok b
    /\ py_min Z.ltb [1; 5; 5; 1; 9]%Z = Ok (x b)
    /\ width b = 8%Z.
Proof.
  destruct (@from_polygon_counts_scalars Z Z.ltb Z.sub
              [1; 2; 5; 2; 5; 4; 1; 4; 9]%Z) as [_ H].
  - simpl. lia.
  - destruct (H [(1, 2); (5, 2); (5, 4); (1, 4)]%Z 9%Z eq_refl)
      as [b [max_x [max_y [Hb [Hx [Hmx [Hw _]]]]]]].
    exists b. split; [exact Hb|]. split; [exact Hx|].
    simpl in Hx, Hmx. injection Hx as Hx. injection Hmx as Hmx.
    rewrite Hw, <- Hx, <- Hmx. reflexivity.
Defined.

End GeometryFacts.

(** ** Filling pixels *)

Module PILFacts.
Import PIL.

Lemma nth_error_enumerate_from {A : Type} (l : list A) :
  forall start k,
    nth_error (combine (seq start (List.length l)) l) k
    = option_map (fun a => (start + k, a)) (nth_error l k).
Proof.
  induction l as [|a l IH]; intros start [|k]; simpl; try reflexivity.
  - now rewrite Nat.add_0_r.
  - rewrite IH. now replace (S start + k) with (start + S k) by lia.
Qed.

Lemma nth_error_fill_area (area : nat -> nat -> bool) (ink : Pixel)
    (im : Image) (k : nat) :
  nth_error (getdata (fill_area area ink im)) k
  = option_map (fun p => if inside area (fst (size im)) k then ink else p)
      (nth_error (getdata im) k).
Proof.
  unfold fill_area, enumerate. simpl.
  rewrite nth_error_map, nth_error_enumerate_from.
  now destruct (nth_error (getdata im) k).
Qed.

Lemma fill_area_blackened (area : nat -> nat -> bool) (im : Image) :
  blackened area (fill_area area black im).
Proof.
  intros k p Hk Hin. rewrite nth_error_fill_area in Hk.
  destruct (nth_error (getdata im) k) as [q|]; [| discriminate].
  simpl in Hk, Hin. rewrite Hin in Hk. now injection Hk as <-.
Qed.

Lemma fill_area_keeps_blackened (a area : nat -> nat -> bool) (im : Image) :
  blackened a im -> blackened a (fill_area area black im).
Proof.
  intros Hb k p Hk Hin. rewrite nth_error_fill_area in Hk.
  destruct (nth_error (getdata im) k) as [q|] eqn:Hq; [| discriminate].
  simpl in Hk, Hin.
  destruct (inside area (fst (size im)) k); injection Hk as <-;
    [reflexivity | now apply (Hb k)].
Qed.

(** Filling an area that is black already changes nothing. *)
Lemma fill_area_fixed (area : nat -> nat -> bool) (im : Image) :
  blackened area im -> fill_area area black im = im.
Proof.
  intros Hb.
  assert (Hdata : getdata (fill_area area black im) = getdata im).
  { apply nth_error_ext. intros k. rewrite nth_error_fill_area.
    destruct (nth_error (getdata im) k) as [q|] eqn:Hq; [| reflexivity].
    simpl. destruct (inside area (fst (size im)) k) eqn:Hin; [| reflexivity].
    now rewrite (Hb k q Hq Hin). }
  destruct im as [m sz data inf]. unfold fill_area in *. simpl in *.
  now rewrite Hdata.
Qed.

(** Being black on an area is read off the size and the pixels alone. *)
Lemma blackened_same_pixels (area : nat -> nat -> bool) (im im' : Image) :
  size im' = size im -> getdata im' = getdata im ->
  blackened area im -> blackened area im'.
Proof.
  unfold blackened. intros -> ->. auto.
Qed.

End PILFacts.

(** ** The renderer *)

Module RendererFacts.
Import PyBuiltins Models PIL PILFacts ImageRedactionService.

Section Renderer.

Variable num : Type.
Variable add_num : num -> num -> num.
Variable Image_open : list byte -> result Image.
Variable Image_convert : Image -> string -> Image.
Variable Image_save : Image -> string -> result (list byte).
Variable rectangle_area : list num -> nat * nat -> result (nat -> nat -> bool).

Lemma draw_rectangle_inv (im im' : Image) (rectangle : list num) :
  draw_rectangle rectangle_area im rectangle = Ok im' ->
  exists area,
    rectangle_area rectangle (size im) = Ok area
    /\ im' = fill_area area black im.
Proof.
  unfold draw_rectangle. intros H.
  apply bind_ok_inv in H as [area [Harea Hfill]].
  injection Hfill as <-. now exists area.
Qed.

Lemma draw_areas_cons (im : Image) (bbox : BoundingBox num)
    (rest : list (BoundingBox num)) :
  draw_areas add_num rectangle_area im (bbox :: rest)
  = (im1 <- draw_rectangle rectangle_area im (rectangle_of add_num bbox) ;;
     draw_areas add_num rectangle_area im1 rest).
Proof. reflexivity. Qed.

(** Drawing keeps the mode and the size, and what is black stays black. *)
Lemma draw_areas_keeps (areas : list (BoundingBox num)) (im im' : Image) :
  draw_areas add_num rectangle_area im areas = Ok im' ->
  mode im' = mode im
  /\ size im' = size im
  /\ (forall a, blackened a im -> blackened a im').
Proof.
  unfold draw_areas.
  apply for_each_invariant
    with (P := fun s => mode s = mode im /\ size s = size im
                        /\ (forall a, blackened a im -> blackened a s));
    [| now repeat split].
  intros s bbox s' _ [Hm [Hs Hb]] Hdraw.
  apply draw_rectangle_inv in Hdraw as [area [_ ->]].
  repeat split; try assumption.
  intros a Ha. apply fill_area_keeps_blackened. now apply Hb.
Qed.

(** After the loop every area of the list is black. *)
Lemma draw_areas_painted (areas : list (BoundingBox num)) :
  forall im im',
    draw_areas add_num rectangle_area im areas = Ok im' ->
    painted add_num rectangle_area areas im'.
Proof.
  induction areas as [|bbox rest IH]; intros im im' Hdraw; [constructor|].
  rewrite draw_areas_cons in Hdraw.
  apply bind_ok_inv in Hdraw as [im1 [Hfirst Hrest]].
  constructor; [| now apply IH with im1].
  apply draw_rectangle_inv in Hfirst as [area [Harea ->]].
  destruct (draw_areas_keeps _ _ Hrest) as [_ [Hsize Hblack]].
  exists area. split.
  - now rewrite Hsize.
  - apply Hblack, fill_area_blackened.
Qed.

(** Drawing areas that are black already returns the image itself. *)
Lemma painted_fixed (areas : list (BoundingBox num)) (im : Image) :
  painted add_num rectangle_area areas im ->
  draw_areas add_num rectangle_area im areas = Ok im.
Proof.
  induction 1 as [|bbox rest [area [Harea Hblack]] _ IH]; [reflexivity|].
  rewrite draw_areas_cons. unfold draw_rectangle. rewrite Harea. simpl.
  now rewrite fill_area_fixed.
Qed.

Lemma painted_same_pixels (areas : list (BoundingBox num)) (im im' : Image) :
  size im' = size im -> getdata im' = getdata im ->
  painted add_num rectangle_area areas im ->
  painted add_num rectangle_area areas im'.
Proof.
  intros Hsize Hdata Hp. unfold painted in *.
  apply Forall_impl with (2 := Hp).
  intros bbox [area [Harea Hblack]]. exists area. split.
  - now rewrite Hsize.
  - now apply blackened_same_pixels with im.
Qed.

Lemma as_rgb_mode (im : Image) :
  convert_sets_mode Image_convert ->
  mode (as_rgb Image_convert im) = "RGB".
Proof.
  intros Hconv. unfold as_rgb.
  destruct (String.eqb_spec (mode im) "RGB") as [E | _]; simpl;
    [exact E | apply Hconv].
Qed.

Lemma as_rgb_of_rgb (im : Image) :
  mode im = "RGB" -> as_rgb Image_convert im = im.
Proof.
  intros E. unfold as_rgb. rewrite E. reflexivity.
Qed.

(** The steps of a successful [redact_image]. *)
Lemma redact_image_inv (src : list byte) (areas : list (BoundingBox num))
    (out : ImageRedactionResult) :
  redact_image add_num Image_open Image_convert Image_save rectangle_area
    src areas = Ok out ->
  exists im drawn,
    Image_open src = Ok im
    /\ draw_areas add_num rectangle_area (as_rgb Image_convert im) areas
       = Ok drawn
    /\ Image_save drawn "PNG" = Ok (result_content out)
    /\ content_type out = "image/png".
Proof.
  unfold redact_image. intros H.
  apply bind_ok_inv in H as [im [Hopen H]].
  apply bind_ok_inv in H as [drawn [Hdraw H]].
  apply bind_ok_inv in H as [b [Hsave H]].
  injection H as <-. now exists im, drawn.
Qed.

(** C7.  With a converter that returns the requested mode and a PNG codec
    that is lossless and stable on RGB images, [redact_image] applied to its
    own output with the same areas returns that output again, byte for byte
    (for the empty list of areas in particular). *)
Theorem redact_image_idempotent :
  convert_sets_mode Image_convert ->
  png_lossless Image_open Image_save ->
  forall (src : list byte) (areas : list (BoundingBox num))
         (out : ImageRedactionResult),
    redact_image add_num Image_open Image_convert Image_save rectangle_area
      src areas = Ok out ->
    redact_image add_num Image_open Image_convert Image_save rectangle_area
      (result_content out) areas = Ok out.
Proof.
  intros Hconv Hpng src areas out Hrun.
  destruct (redact_image_inv _ _ Hrun)
    as [im [drawn [Hopen [Hdraw [Hsave Htype]]]]].
  destruct (draw_areas_keeps _ _ Hdraw) as [Hmode [Hsize _]].
  rewrite as_rgb_mode in Hmode by assumption.
  destruct (Hpng drawn (result_content out) Hmode Hsave)
    as [im' [Hopen' [Hmode' [Hsize' [Hdata' Hsave']]]]].
  unfold redact_image. rewrite Hopen'. simpl.
  rewrite as_rgb_of_rgb by assumption.
  rewrite painted_fixed.
  - simpl. rewrite Hsave'. simpl. destruct out as [b t]. simpl in *.
    now rewrite Htype.
  - apply painted_same_pixels with drawn; try assumption.
    now apply draw_areas_painted with (as_rgb Image_convert im).
Qed.


End Renderer.

End RendererFacts.

(** ** The raw format is a lossless codec *)

Module RawCodecFacts.
Import PIL RawCodec ImageRedactionService.

Lemma dec_nat_enc (n : nat) (rest : list byte) :
  dec_nat (enc_nat n ++ rest)%list = Some (n, rest).
Proof.
  unfold enc_nat. induction n as [|n IH]; simpl; [reflexivity|].
  now rewrite IH.
Qed.

Lemma firstn_length_app {A : Type} (l rest : list A) :
  firstn (List.length l) (l ++ rest)%list = l.
Proof.
  induction l as [|a l IH]; simpl; [reflexivity | now rewrite IH].
Qed.

Lemma skipn_length_app {A : Type} (l rest : list A) :
  skipn (List.length l) (l ++ rest)%list = rest.
Proof.
  induction l as [|a l IH]; simpl; [reflexivity | exact IH].
Qed.

Lemma dec_bytes_enc (l rest : list byte) :
  dec_bytes (enc_bytes l ++ rest)%list = Some (l, rest).
Proof.
  unfold dec_bytes, enc_bytes. rewrite <- app_assoc, dec_nat_enc.
  replace (List.length (l ++ rest)%list <? List.length l)%nat with false.
  - now rewrite firstn_length_app, skipn_length_app.
  - symmetry. apply Nat.ltb_ge. rewrite length_app. lia.
Qed.

Lemma dec_many_enc (ps : list (list byte)) (rest : list byte) :
  dec_many (List.length ps) (flat_map enc_bytes ps ++ rest)%list
  = Some (ps, rest).
Proof.
  induction ps as [|p ps IH]; simpl; [reflexivity|].
  now rewrite <- app_assoc, dec_bytes_enc, IH.
Qed.

(** Decoding an encoded image gives back its mode, size and pixels. *)
Lemma dec_image_enc (im : Image) :
  dec_image (enc_image im)
  = Some {| mode := mode im; size := size im;
            getdata := getdata im; info := [] |}.
Proof.
  unfold dec_image, enc_image.
  rewrite dec_bytes_enc, !dec_nat_enc.
  rewrite <- (app_nil_r (flat_map enc_bytes (getdata im))), dec_many_enc.
  rewrite string_of_list_byte_of_string.
  now destruct (size im).
Qed.

Lemma raw_convert_sets_mode : convert_sets_mode raw_convert.
Proof. intros im m. reflexivity. Qed.


Lemma raw_png_lossless : png_lossless raw_open raw_save.
Proof.
  intros im b Hmode Hsave. injection Hsave as <-.
  exists {| mode := mode im; size := size im;
            getdata := getdata im; info := [] |}.
  unfold raw_open. rewrite dec_image_enc. now repeat split.
Qed.

End RawCodecFacts.

(** ** The pipeline *)

Module PipelineFacts.
Import PyBuiltins Models PIL ImageRedactionService PiiDetectionService.
Import PiiRedactionService RendererFacts MatcherFacts MatcherLoops.

Section Pipeline.

Variable num : Type.
Variable eqb_num : num -> num -> bool.
Variable add_num : num -> num -> num.
Variable Image_open : list byte -> result Image.
Variable Image_convert : Image -> string -> Image.
Variable Image_save : Image -> string -> result (list byte).
Variable rectangle_area : list num -> nat * nat -> result (nat -> nat -> bool).
Variable extract_text_from_image
  : list byte -> result (string * list (DocumentWord num)).
Variable detect_pii : string -> result (list string).





End Pipeline.

Import RawCodec RawCodecFacts.


(** On the raw format: the 2x2 sample with its left column covered, rendered
    twice. *)
Lemma redact_image_idempotent_witness :
  exists out,
    raw_redact_image (enc_image sample_rgb) [sample_box] = Ok out
    /\ getdata sample_rgb <> [black; [x04; x05; x06]; black; [x0a; x0b; x0c]]
    /\ raw_open (result_content out)
       = Ok {| mode := "RGB"; size := (2, 2);
               getdata := [black; [x04; x05; x06]; black; [x0a; x0b; x0c]];
               info := [] |}
    /\ raw_redact_image (result_content out) [sample_box] = Ok out.
Proof.
  eexists. split; [reflexivity|].
  split; [discriminate|].
  split; [reflexivity|].
  apply (@redact_image_idempotent Z Z.add raw_open raw_convert raw_save
           raw_rectangle_area raw_convert_sets_mode raw_png_lossless
           (enc_image sample_rgb) [sample_box]).
  reflexivity.
Defined.



End PipelineFacts.

(** * Further properties *)

(** ** [lower], [strip], [split] *)

Module PyStrMoreFacts.
Import PyStr PyStrMore.

Lemma lower_char_idempotent (c : ascii) :
  lower_char (lower_char c) = lower_char c.
Proof.
  destruct c as [[] [] [] [] [] [] [] []]; reflexivity.
Qed.

Lemma lower_idempotent (s : string) : lower (lower s) = lower s.
Proof.
  induction s as [|c s IH]; simpl; [reflexivity|].
  now rewrite lower_char_idempotent, IH.
Qed.

Lemma no_space_app (s t : string) :
  no_space s -> no_space t -> no_space (s ++ t).
Proof.
  induction s as [|c s IH]; simpl; [auto | intros [Hc Hs] Ht; auto].
Qed.

Lemma app_not_empty (s : string) (c : ascii) :
  is_empty (s ++ String c "") = false.
Proof. now destruct s. Qed.

(** The tokens of [split] are non-empty and free of white space. *)
Lemma split_from_tokens (s : string) :
  forall cur,
    no_space cur ->
    Forall (fun t => t <> "" /\ no_space t) (split_from cur s).
Proof.
  induction s as [|c s IH]; intros cur Hcur; simpl.
  - destruct cur; simpl; constructor; [split; [discriminate | assumption]|].
    constructor.
  - destruct (isspace c) eqn:Hc.
    + destruct cur; simpl.
      * now apply IH.
      * constructor; [split; [discriminate | assumption] | now apply IH].
    + apply IH. apply no_space_app; simpl; auto.
Qed.

Lemma lstrip_no_space_head (s : string) :
  match lstrip s with
  | EmptyString => True
  | String c _ => isspace c = false
  end.
Proof.
  induction s as [|c s IH]; simpl; [exact I|].
  destruct (isspace c) eqn:Hc; [exact IH | exact Hc].
Qed.

Lemma rstrip_no_space (s : string) : no_space s -> rstrip s = s.
Proof.
  induction s as [|c s IH]; simpl; [reflexivity|].
  intros [Hc Hs]. now rewrite Hc, IH.
Qed.

Lemma lstrip_no_space (s : string) : no_space s -> lstrip s = s.
Proof.
  destruct s as [|c s]; simpl; [reflexivity|]. now intros [-> _].
Qed.

Lemma strip_no_space (s : string) : no_space s -> strip s = s.
Proof.
  intros H. unfold strip. now rewrite lstrip_no_space, rstrip_no_space.
Qed.

Lemma split_from_lstrip (s : string) :
  split_from "" (lstrip s) = split_from "" s.
Proof.
  induction s as [|c s IH]; simpl; [reflexivity|].
  destruct (isspace c) eqn:Hc; [exact IH|].
  simpl. now rewrite Hc.
Qed.

Lemma split_from_rstrip (s : string) :
  forall cur, split_from cur (rstrip s) = split_from cur s.
Proof.
  induction s as [|c s IH]; intros cur; simpl; [reflexivity|].
  destruct (isspace c) eqn:Hc; simpl.
  - destruct (rstrip s) as [|d r] eqn:Hr; simpl.
    + rewrite <- (IH ""). simpl. now destruct cur.
    + rewrite Hc, <- (IH ""). reflexivity.
  - rewrite Hc. apply IH.
Qed.

(** Stripping first does not change the tokens. *)
Lemma split_strip (s : string) : split (strip s) = split s.
Proof.
  unfold split, strip. now rewrite split_from_rstrip, split_from_lstrip.
Qed.

Lemma split_tokens (s : string) :
  Forall (fun t => t <> "" /\ no_space t) (split s).
Proof. now apply split_from_tokens. Qed.

Lemma rstrip_idempotent (s : string) : rstrip (rstrip s) = rstrip s.
Proof.
  induction s as [|c s IH]; simpl; [reflexivity|].
  destruct (isspace c && is_empty (rstrip s)) eqn:E; [reflexivity|].
  simpl. now rewrite IH, E.
Qed.

Lemma rstrip_keeps_head (s : string) :
  match s with
  | EmptyString => True
  | String c _ => isspace c = false
  end ->
  lstrip (rstrip s) = rstrip s.
Proof.
  destruct s as [|c s]; simpl; [reflexivity|].
  intros Hc. rewrite Hc. simpl. now rewrite Hc.
Qed.

(** A stripped string is its own [strip]. *)
Lemma strip_idempotent (s : string) : strip (strip s) = strip s.
Proof.
  unfold strip.
  rewrite rstrip_keeps_head by apply lstrip_no_space_head.
  apply rstrip_idempotent.
Qed.

End PyStrMoreFacts.

(** ** More on the matcher *)

Module MatcherMoreFacts.
Import PyBuiltins Models PiiDetectionService PyStrMore PyStrMoreFacts.
Import MatcherFacts.

Lemma filter_all {A : Type} (f : A -> bool) (P : A -> Prop) (l : list A) :
  (forall a, P a -> f a = true) -> Forall P l -> filter f l = l.
Proof.
  intros Hf. induction 1 as [|a l Ha _ IH]; simpl; [reflexivity|].
  now rewrite (Hf a Ha), IH.
Qed.

Lemma map_fixed {A : Type} (f : A -> A) (P : A -> Prop) (l : list A) :
  (forall a, P a -> f a = a) -> Forall P l -> map f l = l.
Proof.
  intros Hf. induction 1 as [|a l Ha _ IH]; simpl; [reflexivity|].
  now rewrite (Hf a Ha), IH.
Qed.

Lemma pii_components_split (pii_value : string) :
  pii_components pii_value = PyStr.split pii_value.
Proof.
  unfold pii_components. rewrite split_strip.
  rewrite filter_all
    with (P := fun t => t <> "" /\ no_space t);
    [| | apply split_tokens].
  - apply map_fixed with (P := fun t => t <> "" /\ no_space t);
      [| apply split_tokens].
    intros t [_ Ht]. now apply strip_no_space.
  - intros t [Hne Ht]. rewrite strip_no_space by assumption.
    now destruct t.
Qed.

Lemma blank_has_no_components (pii_value : string) :
  PyStr.strip pii_value = "" -> pii_components pii_value = [].
Proof.
  intros Hblank.
  now rewrite pii_components_split, <- split_strip, Hblank.
Qed.

(** X1.  The components of a PII value are exactly its white-space separated
    tokens (the three [strip] calls change nothing), and each component is
    non-empty and free of white space. *)
Theorem pii_components_are_the_tokens (pii_value : string) :
  pii_components pii_value = PyStr.split pii_value
  /\ Forall (fun component => component <> "" /\ no_space component)
       (pii_components pii_value).
Proof.
  split; [apply pii_components_split|].
  rewrite pii_components_split. apply split_tokens.
Qed.

Section Matcher.

Variable num : Type.
Variable eqb_num : num -> num -> bool.

Lemma existsb_none {A : Type} (f : A -> bool) (l : list A) :
  (forall a, In a l -> f a = false) -> existsb f l = false.
Proof.
  induction l as [|a l IH]; intros H; simpl; [reflexivity|].
  rewrite (H a) by now left. apply IH. intros b Hb. apply H. now right.
Qed.

(** X2.  Without words, or when every PII value is blank (empty after
    [strip]; no PII value at all in particular),
    [get_words_containing_pii] returns the empty list. *)
Theorem get_words_without_words_or_tokens
    (words : list (DocumentWord num)) (pii_values : list string) :
  words = [] \/ Forall (fun v => PyStr.strip v = "") pii_values ->
  get_words_containing_pii eqb_num words pii_values = Ok [].
Proof.
  intros Hedge. rewrite get_words_closed_form.
  replace (any_match words pii_values) with false; [reflexivity|].
  symmetry. unfold any_match. apply existsb_none. intros v Hv.
  destruct Hedge as [-> | Hblank]; [reflexivity|].
  rewrite Forall_forall in Hblank.
  rewrite blank_has_no_components by now apply Hblank.
  apply existsb_none. reflexivity.
Qed.

(** X3.  The test ignores case: lower-casing the component and the content
    of the word does not change its outcome.  A word with empty content
    passes the test for every component, and so does a word whose content is
    the component. *)
Theorem matches_ignores_case_and_accepts_empty_content
    (component : string) (word : DocumentWord num) :
  matches component word
  = matches (PyStr.lower component)
      (mk_word (PyStr.lower (content word))
         (bounding_box word) (confidence word))
  /\ (forall (box : BoundingBox num) (conf : num),
        matches component (mk_word "" box conf) = true)
  /\ (forall (box : BoundingBox num) (conf : num),
        matches component (mk_word component box conf) = true).
Proof.
  split; [| split].
  - unfold matches. simpl. now rewrite !lower_idempotent.
  - intros box conf. unfold matches. simpl.
    rewrite PyStrFacts.contains_empty. apply orb_true_r.
  - intros box conf. unfold matches. simpl.
    now rewrite PyStrFacts.contains_refl.
Qed.

End Matcher.

(** Blank PII values against one word. *)
Lemma get_words_without_words_or_tokens_witness :
  get_words_containing_pii Z.eqb
    [mk_word "Jane" RawCodec.sample_box 1%Z] ["  "; ""] = Ok [].
Proof.
  apply get_words_without_words_or_tokens.
  right. repeat constructor.
Defined.

End MatcherMoreFacts.

(** ** More on the geometry model *)

Module GeometryMoreFacts.
Import PyBuiltins Models BuiltinFacts GeometryFacts.

Section Order.

Variable num : Type.
Variable lt_num : num -> num -> bool.
Variable sub_num : num -> num -> num.
Hypothesis lt_irrefl : forall a, lt_num a a = false.
Hypothesis lt_trans :
  forall a b c, lt_num a b = true -> lt_num b c = true -> lt_num a c = true.
Hypothesis lt_total :
  forall a b, lt_num a b = false -> lt_num b a = false -> a = b.

Lemma least_unique (m m' : num) (l l' : list num) :
  (forall v, In v l -> In v l') -> (forall v, In v l' -> In v l) ->
  least lt_num m l -> least lt_num m' l' -> m = m'.
Proof.
  intros Hll' Hl'l [Hm Hlow] [Hm' Hlow'].
  apply lt_total; [apply Hlow', Hll', Hm | apply Hlow, Hl'l, Hm'].
Qed.

Lemma greatest_unique (m m' : num) (l l' : list num) :
  (forall v, In v l -> In v l') -> (forall v, In v l' -> In v l) ->
  greatest lt_num m l -> greatest lt_num m' l' -> m = m'.
Proof.
  intros Hll' Hl'l [Hm Hup] [Hm' Hup'].
  apply lt_total; [apply Hup, Hl'l, Hm' | apply Hup', Hll', Hm].
Qed.

(** X5.  When [<] is a strict total order on the coordinates, the box does
    not depend on the order in which the points of the polygon are listed. *)
Theorem from_polygon_ignores_point_order (pts pts' : list (num * num)) :
  Permutation pts pts' ->
  4 <= List.length pts ->
  from_polygon lt_num sub_num (flatten pts)
  = from_polygon lt_num sub_num (flatten pts').
Proof.
  intros Hperm Hlen.
  assert (Hlen' : 4 <= List.length pts')
    by now rewrite <- (Permutation_length Hperm).
  destruct (from_polygon_accepted lt_num sub_num pts [] (Nat.le_0_l 1))
    as [x0 [y0 [x1 [y1 [Hx0 [Hy0 [Hx1 [Hy1 Hbox]]]]]]]].
  { rewrite length_flatten. simpl. lia. }
  destruct (from_polygon_accepted lt_num sub_num pts' [] (Nat.le_0_l 1))
    as [x0' [y0' [x1' [y1' [Hx0' [Hy0' [Hx1' [Hy1' Hbox']]]]]]]].
  { rewrite length_flatten. simpl. lia. }
  rewrite !app_nil_r in *. rewrite Hbox, Hbox'.
  assert (Hfst : forall v, In v (map fst pts) <-> In v (map fst pts')).
  { intros v. split; apply Permutation_in, Permutation_map;
      [assumption | now apply Permutation_sym]. }
  assert (Hsnd : forall v, In v (map snd pts) <-> In v (map snd pts')).
  { intros v. split; apply Permutation_in, Permutation_map;
      [assumption | now apply Permutation_sym]. }
  assert (Ex0 : x0 = x0').
  { apply least_unique with (map fst pts) (map fst pts');
      try apply Hfst; now apply py_min_least. }
  assert (Ey0 : y0 = y0').
  { apply least_unique with (map snd pts) (map snd pts');
      try apply Hsnd; now apply py_min_least. }
  assert (Ex1 : x1 = x1').
  { apply greatest_unique with (map fst pts) (map fst pts');
      try apply Hfst; now apply py_max_greatest. }
  assert (Ey1 : y1 = y1').
  { apply greatest_unique with (map snd pts) (map snd pts');
      try apply Hsnd; now apply py_max_greatest. }
  now subst.
Qed.

End Order.

Lemma Zltb_trans (a b c : Z) :
  (a <? b)%Z = true -> (b <? c)%Z = true -> (a <? c)%Z = true.
Proof. rewrite !Z.ltb_lt. lia. Qed.

Lemma Zltb_total (a b : Z) :
  (a <? b)%Z = false -> (b <? a)%Z = false -> a = b.
Proof. rewrite !Z.ltb_ge. lia. Qed.

(** A returned box comes from a list of at least 8 scalars. *)
Lemma from_polygon_ok_length {num : Type} (lt_num : num -> num -> bool)
    (sub_num : num -> num -> num) (polygon : list num) (b : BoundingBox num) :
  from_polygon lt_num sub_num polygon = Ok b -> 8 <= List.length polygon.
Proof.
  intros Hok. destruct (Nat.lt_ge_cases (List.length polygon) 8) as [H | H];
    [| exact H].
  rewrite from_polygon_rejected in Hok by assumption. discriminate.
Qed.

(** X4.  On integer coordinates the box returned for a list of points has a
    non-negative width and height and contains every point of the list. *)
Theorem from_polygon_box_contains_points
    (pts : list (Z * Z)) (b : BoundingBox Z) :
  from_polygon Z.ltb Z.sub (flatten pts) = Ok b ->
  (0 <= width b)%Z /\ (0 <= height b)%Z
  /\ forall px py, In (px, py) pts ->
       (x b <= px <= x b + width b)%Z /\ (y b <= py <= y b + height b)%Z.
Proof.
  intros Hok.
  pose proof (from_polygon_ok_length _ _ _ Hok) as Hlen.
  rewrite <- (app_nil_r (flatten pts)) in Hok, Hlen.
  destruct (from_polygon_accepted Z.ltb Z.sub pts [] (Nat.le_0_l 1) Hlen)
    as [x0 [y0 [x1 [y1 [Hx0 [Hy0 [Hx1 [Hy1 Hbox]]]]]]]].
  rewrite Hbox in Hok. injection Hok as <-. simpl.
  rewrite !app_nil_r in *.
  apply py_min_least in Hx0, Hy0; try apply Z.ltb_irrefl; try apply Zltb_trans.
  apply py_max_greatest in Hx1, Hy1;
    try apply Z.ltb_irrefl; try apply Zltb_trans.
  destruct Hx0 as [Hx0in Hx0], Hy0 as [Hy0in Hy0].
  destruct Hx1 as [Hx1in Hx1], Hy1 as [Hy1in Hy1].
  pose proof (Hx0 x1 Hx1in) as Hwx. pose proof (Hy0 y1 Hy1in) as Hwy.
  apply Z.ltb_ge in Hwx, Hwy.
  split; [lia|]. split; [lia|].
  intros px py Hin.
  assert (Hpx : In px (map fst pts)) by (apply in_map_iff; now exists (px, py)).
  assert (Hpy : In py (map snd pts)) by (apply in_map_iff; now exists (px, py)).
  pose proof (Hx0 px Hpx) as H1. pose proof (Hx1 px Hpx) as H2.
  pose proof (Hy0 py Hpy) as H3. pose proof (Hy1 py Hpy) as H4.
  apply Z.ltb_ge in H1, H2, H3, H4. lia.
Qed.

(** The corners of a rectangle, listed clockwise and counter-clockwise. *)
Lemma from_polygon_ignores_point_order_witness :
  from_polygon Z.ltb Z.sub (flatten [(1, 2); (5, 2); (5, 4); (1, 4)]%Z)
  = from_polygon Z.ltb Z.sub (flatten [(1, 2); (1, 4); (5, 4); (5, 2)]%Z).
Proof.
  apply (@from_polygon_ignores_point_order Z Z.ltb Z.sub
           Z.ltb_irrefl Zltb_trans Zltb_total).
  - apply perm_skip. apply perm_trans with [(5, 4); (5, 2); (1, 4)]%Z.
    + apply perm_swap.
    + apply perm_trans with [(5, 4); (1, 4); (5, 2)]%Z.
      * apply perm_skip, perm_swap.
      * apply perm_swap.
  - simpl. lia.
Defined.

(** A slanted outline: the box reaches from (60, 9) to (161, 23). *)
Lemma from_polygon_box_contains_points_witness :
  let b := {| x := 60; y := 9; width := 101; height := 14 |}%Z in
  (0 <= width b)%Z /\ (0 <= height b)%Z
  /\ forall px py,
       In (px, py) [(60, 11); (160, 9); (161, 21); (61, 23)]%Z ->
       (x b <= px <= x b + width b)%Z /\ (y b <= py <= y b + height b)%Z.
Proof.
  apply (from_polygon_box_contains_points
           [(60, 11); (160, 9); (161, 21); (61, 23)]%Z).
  reflexivity.
Defined.

End GeometryMoreFacts.

(** ** Text extraction *)

Module ExtractionFacts.
Import PyBuiltins Models TextExtractionService GeometryFacts.

Section Extraction.

Variable num : Type.
Variable lt_num : num -> num -> bool.
Variable sub_num : num -> num -> num.
Variable analyze_document : list byte -> result (AnalyzeResult num).

(** The polygon handed to [from_polygon] is a list of pairs. *)
Lemma polygon_of_flatten (word : OcrWord num) :
  polygon_of word
  = flatten (map (fun p => (point_x p, point_y p)) (ocr_polygon word)).
Proof.
  unfold polygon_of, flatten.
  induction (ocr_polygon word) as [|p pts IH]; simpl; [reflexivity|].
  now rewrite IH.
Qed.

Lemma polygon_of_length (word : OcrWord num) :
  List.length (polygon_of word) = 2 * List.length (ocr_polygon word).
Proof.
  rewrite polygon_of_flatten, <- (app_nil_r (flatten _)), length_flatten.
  rewrite length_map. simpl. lia.
Qed.

Lemma append_word_ok (acc : list (DocumentWord num)) (ocr : OcrWord num) :
  4 <= List.length (ocr_polygon ocr) ->
  exists word,
    append_word lt_num sub_num acc ocr = Ok (acc ++ [word])%list
    /\ converted lt_num sub_num ocr word.
Proof.
  intros Hlen. unfold append_word, converted.
  destruct (polygon_pairs (polygon_of ocr)) as [pts [tail [E Htail]]].
  destruct (from_polygon_accepted lt_num sub_num pts tail Htail)
    as [x0 [y0 [x1 [y1 [_ [_ [_ [_ Hbox]]]]]]]].
  { rewrite <- E, polygon_of_length. lia. }
  rewrite E, Hbox. simpl. eexists. split; [reflexivity|].
  now repeat split.
Qed.

Lemma append_word_bad (acc : list (DocumentWord num)) (ocr : OcrWord num) :
  List.length (ocr_polygon ocr) < 4 ->
  append_word lt_num sub_num acc ocr = Raise polygon_too_short.
Proof.
  intros Hlen. unfold append_word.
  rewrite from_polygon_rejected; [reflexivity|].
  rewrite polygon_of_length. lia.
Qed.

Lemma words_loop_ok (ws : list (OcrWord num)) :
  forall acc,
    Forall (fun w => 4 <= List.length (ocr_polygon w)) ws ->
    exists out,
      for_each ws (append_word lt_num sub_num) acc = Ok (acc ++ out)%list
      /\ Forall2 (converted lt_num sub_num) ws out.
Proof.
  induction ws as [|w ws IH]; intros acc Hgood; simpl.
  - exists []. now rewrite app_nil_r.
  - inversion Hgood as [|w' ws' Hw Hws]; subst.
    destruct (append_word_ok acc w Hw) as [word [-> Hconv]]. simpl.
    destruct (IH (acc ++ [word])%list Hws) as [out [-> Hout]].
    exists (word :: out). rewrite <- app_assoc. simpl.
    split; [reflexivity | now constructor].
Qed.

Lemma words_loop_bad (ws : list (OcrWord num)) :
  forall acc,
    Exists (fun w => List.length (ocr_polygon w) < 4) ws ->
    for_each ws (append_word lt_num sub_num) acc = Raise polygon_too_short.
Proof.
  induction ws as [|w ws IH]; intros acc Hbad; [inversion Hbad|].
  simpl. destruct (Nat.lt_ge_cases (List.length (ocr_polygon w)) 4)
    as [Hlt | Hge].
  - now rewrite append_word_bad.
  - destruct (append_word_ok acc w Hge) as [word [-> _]]. simpl.
    apply IH. inversion Hbad as [w' ws' Hw | w' ws' Hws]; subst;
      [lia | assumption].
Qed.

Lemma good_or_bad (ws : list (OcrWord num)) :
  Forall (fun w => 4 <= List.length (ocr_polygon w)) ws
  \/ Exists (fun w => List.length (ocr_polygon w) < 4) ws.
Proof.
  induction ws as [|w ws [IH | IH]].
  - left. constructor.
  - destruct (Nat.lt_ge_cases (List.length (ocr_polygon w)) 4) as [H | H].
    + right. now left.
    + left. now constructor.
  - right. now right.
Qed.

Lemma good_not_bad (ws : list (OcrWord num)) :
  Forall (fun w => 4 <= List.length (ocr_polygon w)) ws ->
  Exists (fun w => List.length (ocr_polygon w) < 4) ws -> False.
Proof.
  intros Hgood Hbad. rewrite Forall_forall in Hgood.
  apply Exists_exists in Hbad as [w [Hin Hlt]].
  specialize (Hgood w Hin). lia.
Qed.

Lemma pages_loop_ok (pages : list (DocumentPage num)) :
  forall acc,
    Forall (fun w => 4 <= List.length (ocr_polygon w))
      (flat_map (@page_words num) pages) ->
    exists out,
      for_each pages
        (fun document_words page =>
           for_each (page_words page) (append_word lt_num sub_num)
             document_words)
        acc
      = Ok (acc ++ out)%list
      /\ Forall2 (converted lt_num sub_num)
           (flat_map (@page_words num) pages) out.
Proof.
  induction pages as [|page pages IH]; intros acc Hgood; simpl.
  - exists []. now rewrite app_nil_r.
  - simpl in Hgood. apply Forall_app in Hgood as [Hpage Hrest].
    destruct (words_loop_ok acc Hpage) as [out1 [-> Hout1]]. simpl.
    destruct (IH (acc ++ out1)%list Hrest) as [out2 [-> Hout2]].
    exists (out1 ++ out2)%list. rewrite app_assoc.
    split; [reflexivity | now apply Forall2_app].
Qed.

Lemma pages_loop_bad (pages : list (DocumentPage num)) :
  forall acc,
    Exists (fun w => List.length (ocr_polygon w) < 4)
      (flat_map (@page_words num) pages) ->
    for_each pages
      (fun document_words page =>
         for_each (page_words page) (append_word lt_num sub_num)
           document_words)
      acc
    = Raise polygon_too_short.
Proof.
  induction pages as [|page pages IH]; intros acc Hbad; [inversion Hbad|].
  simpl in *. destruct (good_or_bad (page_words page)) as [Hgood | Hpage].
  - destruct (words_loop_ok acc Hgood) as [out1 [-> _]]. simpl.
    apply IH. apply Exists_app in Hbad as [Hbad | Hbad]; [| assumption].
    destruct (good_not_bad Hgood Hbad).
  - now rewrite words_loop_bad.
Qed.

(** X6.  When the analysis returns and every word of every page has an
    outline of at least 4 points, [extract_text_from_image] returns the
    text of the analysis and one [DocumentWord] per word, in the order of
    the pages and of their words, each with the content and the confidence
    of its word and the box of its polygon. *)
Theorem extract_text_from_image_converts_every_word
    (image_bytes : list byte) (analysis : AnalyzeResult num) :
  analyze_document image_bytes = Ok analysis ->
  Forall (fun w => 4 <= List.length (ocr_polygon w)) (all_words analysis) ->
  exists document_words,
    extract_text_from_image lt_num sub_num analyze_document image_bytes
    = Ok (analyzed_content analysis, document_words)
    /\ Forall2 (converted lt_num sub_num) (all_words analysis) document_words.
Proof.
  intros Hanalysis Hgood. unfold extract_text_from_image.
  rewrite Hanalysis. simpl.
  destruct (pages_loop_ok (analyzed_pages analysis) [] Hgood)
    as [out [-> Hout]].
  simpl. now exists out.
Qed.

(** X7.  When the analysis returns and some word has an outline of fewer
    than 4 points, [extract_text_from_image] raises the [ValueError] of
    [from_polygon]: no word is returned, not even the words before it. *)
Theorem extract_text_from_image_rejects_short_outline
    (image_bytes : list byte) (analysis : AnalyzeResult num) :
  analyze_document image_bytes = Ok analysis ->
  Exists (fun w => List.length (ocr_polygon w) < 4) (all_words analysis) ->
  extract_text_from_image lt_num sub_num analyze_document image_bytes
  = Raise polygon_too_short.
Proof.
  intros Hanalysis Hbad. unfold extract_text_from_image.
  rewrite Hanalysis. simpl.
  now rewrite pages_loop_bad.
Qed.

End Extraction.

Import Samples.

(** The two sample words: both are returned, with their boxes. *)
Lemma extract_text_from_image_converts_every_word_witness :
  exists document_words,
    extract_text_from_image Z.ltb Z.sub sample_analyze []
    = Ok ("SSN: 123-45-6789", document_words)
    /\ Forall2 (converted Z.ltb Z.sub) [sample_label; sample_number]
         document_words.
Proof.
  apply (@extract_text_from_image_converts_every_word Z Z.ltb Z.sub
           sample_analyze [] sample_analysis eq_refl).
  repeat constructor.
Defined.

(** A three-point outline on the second page. *)
Lemma extract_text_from_image_rejects_short_outline_witness :
  extract_text_from_image Z.ltb Z.sub sample_bad_analyze []
  = Raise polygon_too_short.
Proof.
  apply (@extract_text_from_image_rejects_short_outline Z Z.ltb Z.sub
           sample_bad_analyze [] sample_bad_analysis eq_refl).
  right. left. simpl. lia.
Defined.

End ExtractionFacts.

(** ** More on the renderer *)

Module RendererMoreFacts.
Import PyBuiltins Models PIL PILFacts ImageRedactionService RendererFacts.
Import Areas.

Lemma fill_area_ext (f g : nat -> nat -> bool) (ink : Pixel) (im : Image) :
  (forall px py, f px py = g px py) ->
  fill_area f ink im = fill_area g ink im.
Proof.
  intros Hfg. unfold fill_area. f_equal.
  apply map_ext. intros [k p]. simpl. unfold inside.
  destruct (coords (fst (size im)) k) as [px py]. now rewrite Hfg.
Qed.

Lemma image_eq (im im' : Image) :
  mode im = mode im' -> size im = size im' ->
  getdata im = getdata im' -> info im = info im' -> im = im'.
Proof.
  destruct im, im'. simpl. now intros -> -> -> ->.
Qed.

(** Filling nothing changes nothing. *)
Lemma fill_area_nothing (ink : Pixel) (im : Image) :
  fill_area (union []) ink im = im.
Proof.
  apply image_eq; try reflexivity.
  apply nth_error_ext. intros k. rewrite nth_error_fill_area.
  destruct (nth_error (getdata im) k); simpl; [| reflexivity].
  unfold inside. now destruct (coords (fst (size im)) k).
Qed.

(** Two fills with one ink are one fill of the union. *)
Lemma fill_area_twice (f g : nat -> nat -> bool) (ink : Pixel) (im : Image) :
  fill_area g ink (fill_area f ink im)
  = fill_area (fun px py => f px py || g px py) ink im.
Proof.
  apply image_eq; try reflexivity.
  apply nth_error_ext. intros k. rewrite !nth_error_fill_area.
  destruct (nth_error (getdata im) k); simpl; [| reflexivity].
  unfold inside. destruct (coords (fst (size im)) k) as [px py].
  now destruct (f px py), (g px py).
Qed.

Section Renderer.

Variable num : Type.
Variable add_num : num -> num -> num.
Variable Image_open : list byte -> result Image.
Variable Image_convert : Image -> string -> Image.
Variable Image_save : Image -> string -> result (list byte).
Variable rectangle_area : list num -> nat * nat -> result (nat -> nat -> bool).

(** The loop draws the union of the areas that [rectangle] fills. *)
Lemma draw_areas_union (areas : list (BoundingBox num)) :
  forall im drawn,
    draw_areas add_num rectangle_area im areas = Ok drawn ->
    exists fs,
      Forall2 (fun bbox f =>
                 rectangle_area (rectangle_of add_num bbox) (size im) = Ok f)
        areas fs
      /\ drawn = fill_area (union fs) black im.
Proof.
  induction areas as [|bbox rest IH]; intros im drawn Hdraw.
  - injection Hdraw as <-. exists []. split; [constructor|].
    now rewrite fill_area_nothing.
  - rewrite draw_areas_cons in Hdraw.
    apply bind_ok_inv in Hdraw as [im1 [Hfirst Hrest]].
    apply draw_rectangle_inv in Hfirst as [f [Hf ->]].
    destruct (IH _ _ Hrest) as [fs [Hfs ->]].
    exists (f :: fs). split; [now constructor|].
    now rewrite fill_area_twice.
Qed.

(** X8.  When [redact_image] returns, the image it saved is the decoded
    source, converted to RGB when its mode is another one, in which exactly
    the pixels that [rectangle] fills for some area are black; the other
    pixels, the mode and the size are those of that image, and the content
    type is image/png. *)
Theorem redact_image_blackens_exactly_the_areas
    (src : list byte) (areas : list (BoundingBox num))
    (out : ImageRedactionResult) :
  redact_image add_num Image_open Image_convert Image_save rectangle_area
    src areas = Ok out ->
  exists im fs,
    Image_open src = Ok im
    /\ Forall2 (fun bbox f =>
                  rectangle_area (rectangle_of add_num bbox)
                    (size (as_rgb Image_convert im)) = Ok f)
         areas fs
    /\ Image_save (fill_area (union fs) black (as_rgb Image_convert im)) "PNG"
       = Ok (result_content out)
    /\ content_type out = "image/png".
Proof.
  intros Hrun.
  destruct (redact_image_inv _ _ _ _ _ _ _ Hrun)
    as [im [drawn [Hopen [Hdraw [Hsave Htype]]]]].
  destruct (draw_areas_union _ _ Hdraw) as [fs [Hfs ->]].
  now exists im, fs.
Qed.

Lemma draw_areas_swap (a b : BoundingBox num) (l : list (BoundingBox num))
    (im drawn : Image) :
  draw_areas add_num rectangle_area im (a :: b :: l) = Ok drawn ->
  draw_areas add_num rectangle_area im (b :: a :: l) = Ok drawn.
Proof.
  intros Hdraw. rewrite draw_areas_cons in Hdraw.
  apply bind_ok_inv in Hdraw as [im1 [Ha Hdraw]].
  rewrite draw_areas_cons in Hdraw.
  apply bind_ok_inv in Hdraw as [im2 [Hb Hrest]].
  apply draw_rectangle_inv in Ha as [f [Hf ->]].
  apply draw_rectangle_inv in Hb as [g [Hg ->]].
  change (size (fill_area f black im)) with (size im) in Hg.
  rewrite draw_areas_cons. unfold draw_rectangle at 1.
  rewrite Hg. cbn [bind].
  rewrite draw_areas_cons. unfold draw_rectangle at 1.
  change (size (fill_area g black im)) with (size im).
  rewrite Hf. cbn [bind].
  rewrite <- Hrest. f_equal.
  rewrite !fill_area_twice. apply fill_area_ext.
  intros px py. apply orb_comm.
Qed.

Lemma draw_areas_permutation (l l' : list (BoundingBox num)) :
  Permutation l l' ->
  forall im drawn,
    draw_areas add_num rectangle_area im l = Ok drawn ->
    draw_areas add_num rectangle_area im l' = Ok drawn.
Proof.
  induction 1 as [| a l l' _ IH | a b l | l l' l'' _ IH1 _ IH2];
    intros im drawn Hdraw.
  - exact Hdraw.
  - rewrite draw_areas_cons in *.
    apply bind_ok_inv in Hdraw as [im1 [-> Hrest]]. simpl. now apply IH.
  - now apply draw_areas_swap.
  - now apply IH2, IH1.
Qed.

(** X9.  The order of the areas does not matter: when [redact_image]
    returns for a list of areas, it returns the same result for every
    reordering of the list. *)
Theorem redact_image_ignores_area_order
    (src : list byte) (areas areas' : list (BoundingBox num))
    (out : ImageRedactionResult) :
  Permutation areas areas' ->
  redact_image add_num Image_open Image_convert Image_save rectangle_area
    src areas = Ok out ->
  redact_image add_num Image_open Image_convert Image_save rectangle_area
    src areas' = Ok out.
Proof.
  intros Hperm Hrun. unfold redact_image in *.
  apply bind_ok_inv in Hrun as [im [-> Hrun]]. simpl.
  apply bind_ok_inv in Hrun as [drawn [Hdraw Hrun]].
  now rewrite (draw_areas_permutation Hperm _ Hdraw).
Qed.

End Renderer.

Import RawCodec Samples.

(** The 2x2 sample with two areas. *)
Lemma redact_image_blackens_exactly_the_areas_witness :
  exists im fs,
    raw_open (enc_image sample_rgb) = Ok im
    /\ Forall2 (fun bbox f =>
                  raw_rectangle_area (rectangle_of Z.add bbox)
                    (size (as_rgb raw_convert im)) = Ok f)
         [sample_box; sample_corner] fs
    /\ raw_save (fill_area (union fs) black (as_rgb raw_convert im)) "PNG"
       = Ok (result_content sample_redacted)
    /\ content_type sample_redacted = "image/png".
Proof.
  apply (@redact_image_blackens_exactly_the_areas Z Z.add raw_open
           raw_convert raw_save raw_rectangle_area
           (enc_image sample_rgb) [sample_box; sample_corner]).
  reflexivity.
Defined.

(** The same two areas in the other order. *)
Lemma redact_image_ignores_area_order_witness :
  raw_redact_image (enc_image sample_rgb) [sample_corner; sample_box]
  = Ok sample_redacted.
Proof.
  apply (@redact_image_ignores_area_order Z Z.add raw_open raw_convert
           raw_save raw_rectangle_area (enc_image sample_rgb)
           [sample_box; sample_corner] [sample_corner; sample_box]).
  - apply perm_swap.
  - reflexivity.
Defined.

End RendererMoreFacts.

(** ** More on the pipeline *)

Module PipelineMoreFacts.
Import PyBuiltins Models PiiDetectionService PiiRedactionService.
Import MatcherFacts Matching.

Section Pipeline.

Variable num : Type.
Variable eqb_num : num -> num -> bool.
Variable extract_text_from_image
  : list byte -> result (string * list (DocumentWord num)).
Variable extract_pii : string -> result (PySet string).
Variable redact_image
  : list byte -> list (BoundingBox num) -> result ImageRedactionResult.

Lemma any_match_false (words : list (DocumentWord num))
    (pii_values : list string) :
  any_match words pii_values = false <-> no_match words pii_values.
Proof.
  split.
  - intros Hno v c w Hv Hc Hw.
    destruct (matches c w) eqn:E; [| reflexivity].
    rewrite <- Hno. symmetry. apply any_match_spec. now exists v, w, c.
  - intros Hno. destruct (any_match words pii_values) eqn:E; [| reflexivity].
    apply any_match_spec in E as [v [w [c [Hv [Hw [Hc Hm]]]]]].
    now rewrite (Hno v c w Hv Hc Hw) in Hm.
Qed.

(** The areas of step 3: none when nothing matches, an exception otherwise. *)
Lemma redaction_areas_closed_form (words : list (DocumentWord num))
    (pii_values : PySet string) :
  redaction_areas_for eqb_num words pii_values
  = if any_match words pii_values
    then Raise unhashable_DocumentWord else Ok [].
Proof.
  unfold redaction_areas_for. destruct pii_values as [|v vs].
  - reflexivity.
  - rewrite get_words_closed_form. now destruct (any_match words (v :: vs)).
Qed.

(** X10.  [redact_pii] returns exactly when the OCR and the detection
    return, no word passes the test for any component of a detected value,
    and the renderer returns for the source with no area; what it returns is
    that rendering.  So an image that [redact_pii] returns never has an
    area drawn on it. *)
Theorem redact_pii_returns_only_the_unredacted_rendering
    (src bytes : list byte) (ctype : string) :
  redact_pii eqb_num extract_text_from_image extract_pii redact_image src
  = Ok (bytes, ctype)
  <->
  exists text words pii_values out,
    extract_text_from_image src = Ok (text, words)
    /\ extract_pii text = Ok pii_values
    /\ no_match words pii_values
    /\ redact_image src [] = Ok out
    /\ bytes = result_content out
    /\ ctype = content_type out.
Proof.
  unfold redact_pii. split.
  - intros Hrun.
    apply bind_ok_inv in Hrun as [[text words] [Hocr Hrun]].
    apply bind_ok_inv in Hrun as [pii [Hpii Hrun]].
    apply bind_ok_inv in Hrun as [areas [Hareas Hrun]].
    apply bind_ok_inv in Hrun as [out [Hout Hret]].
    rewrite redaction_areas_closed_form in Hareas.
    destruct (any_match words pii) eqn:E; [discriminate|].
    injection Hareas as <-. injection Hret as <- <-.
    exists text, words, pii, out. repeat split; try assumption.
    now apply any_match_false.
  - intros [text [words [pii [out [Hocr [Hpii [Hno [Hout [-> ->]]]]]]]]].
    rewrite Hocr. simpl. rewrite Hpii. simpl.
    rewrite redaction_areas_closed_form.
    apply any_match_false in Hno. rewrite Hno. simpl. now rewrite Hout.
Qed.

Lemma redact_pii_raises_on_match
    (src : list byte) (text : string) (words : list (DocumentWord num))
    (pii_values : PySet string) (pii_value component : string)
    (word : DocumentWord num) :
  extract_text_from_image src = Ok (text, words) ->
  extract_pii text = Ok pii_values ->
  In pii_value pii_values ->
  In component (pii_components pii_value) ->
  In word words ->
  matches component word = true ->
  redact_pii eqb_num extract_text_from_image extract_pii redact_image src
  = Raise unhashable_DocumentWord.
Proof.
  intros Hocr Hpii Hv Hc Hw Hm. unfold redact_pii.
  rewrite Hocr. simpl. rewrite Hpii. simpl.
  rewrite redaction_areas_closed_form.
  replace (any_match words pii_values) with true; [reflexivity|].
  symmetry. apply any_match_spec. now exists pii_value, word, component.
Qed.

(** X11.  When the OCR and the detection return and some word passes the
    test for a component of a detected value, [redact_pii] raises the
    [TypeError] of the unhashable [DocumentWord]; the renderer is not
    consulted. *)
Theorem redact_pii_raises_when_a_word_matches
    (src : list byte) (text : string) (words : list (DocumentWord num))
    (pii_values : PySet string) (pii_value component : string)
    (word : DocumentWord num) :
  extract_text_from_image src = Ok (text, words) ->
  extract_pii text = Ok pii_values ->
  In pii_value pii_values ->
  In component (pii_components pii_value) ->
  In word words ->
  matches component word = true ->
  redact_pii eqb_num extract_text_from_image extract_pii redact_image src
  = Raise unhashable_DocumentWord.
Proof.
  intros Hocr Hpii Hv Hc Hw Hm. unfold redact_pii.
  rewrite Hocr. simpl. rewrite Hpii. simpl.
  rewrite redaction_areas_closed_form.
  assert (Hany : any_match words pii_values = true).
  { apply any_match_spec. now exists pii_value, word, component. }
  now rewrite Hany.
Qed.

End Pipeline.

(** X20.  [extract_pii] returns the values of the provider without
    duplicates: every detected value is kept once, nothing else is added,
    and an exception of the provider is raised unchanged. *)
Theorem extract_pii_keeps_each_value_once
    (detect_pii : string -> result (list string)) (text_content : string) :
  match detect_pii text_content with
  | Ok detected =>
      exists pii_values,
        extract_pii detect_pii text_content = Ok pii_values
        /\ NoDup pii_values
        /\ (forall v, In v pii_values <-> In v detected)
        /\ (detected = [] <-> pii_values = [])
  | Raise e => extract_pii detect_pii text_content = Raise e
  end.
Proof.
  unfold extract_pii.
  destruct (detect_pii text_content) as [detected | e]; simpl;
    [| reflexivity].
  exists (set_of_strings detected). unfold set_of_strings.
  repeat split.
  - apply NoDup_nodup.
  - apply nodup_In.
  - apply nodup_In.
  - now intros ->.
  - intros Hnil. destruct detected as [|v vs]; [reflexivity|].
    assert (Hin : In v (nodup string_dec (v :: vs)))
      by (apply nodup_In; now left).
    rewrite Hnil in Hin. destruct Hin.
Qed.

Import TextExtractionService RawCodec Samples.

(** The sample page with the detector that finds its number. *)
Lemma redact_pii_raises_when_a_word_matches_witness :
  redact_pii Z.eqb
    (extract_text_from_image Z.ltb Z.sub sample_analyze)
    (extract_pii sample_detect) raw_redact_image (enc_image sample_rgb)
  = Raise unhashable_DocumentWord.
Proof.
  apply (@redact_pii_raises_when_a_word_matches Z Z.eqb
           (extract_text_from_image Z.ltb Z.sub sample_analyze)
           (extract_pii sample_detect) raw_redact_image
           (enc_image sample_rgb) "SSN: 123-45-6789"
           [mk_word "SSN:"
              {| x := 10; y := 10; width := 40; height := 12 |}%Z 1%Z;
            mk_word "123-45-6789"
              {| x := 60; y := 9; width := 101; height := 14 |}%Z 1%Z]
           ["123-45-6789"] "123-45-6789" "123-45-6789"
           (mk_word "123-45-6789"
              {| x := 60; y := 9; width := 101; height := 14 |}%Z 1%Z)).
  - reflexivity.
  - reflexivity.
  - now left.
  - now left.
  - right. now left.
  - reflexivity.
Defined.

End PipelineMoreFacts.

(** ** The providers *)

Module ProviderFacts.
Import PyBuiltins Models PyStr PyStrMore PyStrMoreFacts.

(** The texts of the entities of the documents that are not errors. *)
Lemma entity_loop (ents : list AzureProvider.PiiEntity) :
  forall acc : list string,
    for_each ents
      (fun pii_entities entity =>
         Ok (pii_entities ++ [AzureProvider.text entity])%list) acc
    = Ok (acc ++ map AzureProvider.text ents)%list.
Proof.
  induction ents as [|e ents IH]; intros acc; simpl.
  - now rewrite app_nil_r.
  - rewrite IH, <- app_assoc. reflexivity.
Qed.

Section Azure.

Variable recognize_pii_entities
  : list string -> string -> result (list AzureProvider.PiiDocument).

Lemma document_loop (docs : list AzureProvider.PiiDocument) :
  forall acc : list string,
    for_each docs
      (fun pii_entities doc =>
         if negb (AzureProvider.is_error doc)
         then for_each (AzureProvider.entities doc)
                (fun pii_entities entity =>
                   Ok (pii_entities ++ [AzureProvider.text entity])%list)
                pii_entities
         else Ok pii_entities)
      acc
    = Ok (acc
          ++ flat_map (fun doc =>
                         if AzureProvider.is_error doc then []
                         else map AzureProvider.text
                                (AzureProvider.entities doc))
               docs)%list.
Proof.
  induction docs as [|doc docs IH]; intros acc; simpl.
  - now rewrite app_nil_r.
  - destruct (AzureProvider.is_error doc); simpl.
    + apply IH.
    + rewrite entity_loop. simpl. rewrite IH, <- app_assoc. reflexivity.
Qed.

(** X12.  The Azure provider returns, in the order of the response, the
    texts of the entities of the documents that are not errors; an error
    document adds nothing and raises nothing, and an exception of the
    client call is raised unchanged. *)
Theorem azure_detect_pii_skips_error_documents (text_content : string) :
  AzureProvider.detect_pii recognize_pii_entities text_content
  = match recognize_pii_entities [text_content] "en" with
    | Ok response =>
        Ok (flat_map (fun doc =>
                        if AzureProvider.is_error doc then []
                        else map AzureProvider.text
                               (AzureProvider.entities doc))
              response)
    | Raise e => Raise e
    end.
Proof.
  unfold AzureProvider.detect_pii.
  destruct (recognize_pii_entities [text_content] "en") as [response | e];
    simpl; [| reflexivity].
  now rewrite document_loop.
Qed.

Lemma azure_only_errors (text_content : string)
    (response : list AzureProvider.PiiDocument) :
  recognize_pii_entities [text_content] "en" = Ok response ->
  Forall (fun doc => AzureProvider.is_error doc = true) response ->
  AzureProvider.detect_pii recognize_pii_entities text_content = Ok [].
Proof.
  intros Hresponse Herrors. unfold AzureProvider.detect_pii.
  rewrite Hresponse. simpl. rewrite document_loop. simpl. f_equal.
  clear Hresponse.
  induction Herrors as [|doc docs Hdoc _ IH]; simpl; [reflexivity|].
  rewrite Hdoc. exact IH.
Qed.

Variable num : Type.
Variable eqb_num : num -> num -> bool.
Variable extract_text_from_image
  : list byte -> result (string * list (DocumentWord num)).
Variable redact_image
  : list byte -> list (BoundingBox num) -> result ImageRedactionResult.

(** X13.  An error reported by Azure for the document does not stop the
    pipeline: when the OCR returns and the response holds error documents
    only, [redact_pii] with the Azure provider is the rendering of the source
    with no area. *)
Theorem redact_pii_renders_unredacted_on_azure_error
    (src : list byte) (text : string) (words : list (DocumentWord num))
    (response : list AzureProvider.PiiDocument) :
  extract_text_from_image src = Ok (text, words) ->
  recognize_pii_entities [text] "en" = Ok response ->
  Forall (fun doc => AzureProvider.is_error doc = true) response ->
  PiiRedactionService.redact_pii eqb_num extract_text_from_image
    (PiiDetectionService.extract_pii
       (AzureProvider.detect_pii recognize_pii_entities))
    redact_image src
  = (out <- redact_image src [] ;;
     Ok (result_content out, content_type out)).
Proof.
  intros Hocr Hresponse Herrors.
  unfold PiiRedactionService.redact_pii, PiiDetectionService.extract_pii.
  rewrite Hocr. simpl.
  now rewrite (azure_only_errors Hresponse Herrors).
Qed.

End Azure.

(** *** The OpenAI provider *)

Lemma split_sep_not_nil (sep : ascii) (s : string) : split_sep sep s <> [].
Proof.
  destruct s as [|c s]; simpl; [discriminate|].
  destruct (Ascii.eqb c sep); [discriminate|].
  destruct (split_sep sep s); discriminate.
Qed.

(** The pieces of [split(sep)] are free of [sep]. *)
Lemma split_sep_free (sep : ascii) (s : string) :
  Forall (free_of sep) (split_sep sep s).
Proof.
  induction s as [|c s IH]; simpl.
  - repeat constructor.
  - destruct (Ascii.eqb_spec c sep) as [-> | Hc].
    + constructor; [exact I | exact IH].
    + destruct (split_sep sep s) as [|piece pieces].
      * repeat constructor. exact Hc.
      * inversion IH as [|p ps Hp Hps]; subst.
        constructor; [now split | assumption].
Qed.

Lemma lstrip_free (c : ascii) (s : string) :
  free_of c s -> free_of c (lstrip s).
Proof.
  induction s as [|a s IH]; simpl; [auto|].
  intros [Ha Hs]. destruct (isspace a); [now apply IH | now split].
Qed.

Lemma rstrip_free (c : ascii) (s : string) :
  free_of c s -> free_of c (rstrip s).
Proof.
  induction s as [|a s IH]; simpl; [auto|].
  intros [Ha Hs]. destruct (isspace a && is_empty (rstrip s)); simpl; auto.
Qed.

Lemma strip_free (c : ascii) (s : string) :
  free_of c s -> free_of c (strip s).
Proof. intros H. now apply rstrip_free, lstrip_free. Qed.

Lemma parse_lines_entities (response_text : string) :
  Forall (fun entity =>
            entity <> "" /\ strip entity = entity /\ free_of "010" entity)
    (OpenAiProvider.parse_lines response_text).
Proof.
  unfold OpenAiProvider.parse_lines. apply Forall_forall. intros e He.
  apply in_map_iff in He as [line [<- Hline]].
  apply filter_In in Hline as [Hin Hkeep].
  repeat split.
  - destruct (strip line); [discriminate Hkeep | discriminate].
  - apply strip_idempotent.
  - apply strip_free.
    pose proof (split_sep_free "010" (strip response_text)) as Hfree.
    rewrite Forall_forall in Hfree. now apply Hfree.
Qed.

(** X14.  Every entity that the OpenAI provider returns is non-empty, is its
    own [strip] (it has no white space at either end) and holds no line feed,
    the separator of [split('\n')]; blank lines give no entity. *)
Theorem openai_entities_are_stripped_lines
    (choices : list (option string)) (pii_entities : list string) :
  OpenAiProvider.detect_pii_of_response choices
  = OpenAiProvider.Entities pii_entities ->
  Forall (fun entity =>
            entity <> "" /\ strip entity = entity /\ free_of "010" entity)
    pii_entities.
Proof.
  unfold OpenAiProvider.detect_pii_of_response.
  destruct choices as [|[[|c text]|] rest]; try discriminate;
    intros H; injection H as <-; try constructor.
  apply parse_lines_entities.
Qed.

Import RawCodec Samples.

(** No text, and one error document as the answer of Azure. *)
Lemma redact_pii_renders_unredacted_on_azure_error_witness :
  PiiRedactionService.redact_pii Z.eqb no_text
    (PiiDetectionService.extract_pii
       (AzureProvider.detect_pii sample_error_response))
    raw_redact_image (enc_image sample_la)
  = (out <- raw_redact_image (enc_image sample_la) [] ;;
     Ok (result_content out, content_type out)).
Proof.
  apply (@redact_pii_renders_unredacted_on_azure_error
           sample_error_response Z Z.eqb no_text raw_redact_image
           (enc_image sample_la) "" []
           [{| AzureProvider.is_error := true;
               AzureProvider.entities := [] |}]).
  - reflexivity.
  - reflexivity.
  - repeat constructor.
Defined.

(** An answer of four lines, two of them blank. *)
Lemma openai_entities_are_stripped_lines_witness :
  Forall (fun entity =>
            entity <> "" /\ strip entity = entity /\ free_of "010" entity)
    ["John Doe"; "4111 1111"].
Proof.
  apply (openai_entities_are_stripped_lines
           [Some (" John Doe "
                  ++ String "010" (String "010" "  4111 1111")
                  ++ String "010" "   ");
            None]).
  reflexivity.
Defined.

End ProviderFacts.

(** ** The configuration and the HTTP layer *)

Module AppFacts.
Import PyBuiltins PyStr PyStrMore PyStrMoreFacts AppFilter.

Lemma mem_spec (s : string) (l : list string) :
  mem s l = true <-> In s l.
Proof.
  unfold mem. rewrite existsb_exists. split.
  - intros [t [Ht E]]. apply String.eqb_eq in E. now subst.
  - intros H. exists s. split; [assumption | apply String.eqb_refl].
Qed.

Lemma contains_char (c : ascii) (s : string) :
  contains (String c "") s = false <-> free_of c s.
Proof.
  induction s as [|a s IH]; simpl; [tauto|].
  rewrite orb_false_iff, andb_false_iff, IH.
  destruct (Ascii.eqb_spec c a) as [-> | Hc]; split.
  - intros [[H | H] _]; [discriminate | now destruct s].
  - intros [H _]. now destruct H.
  - intros [_ H]. split; [congruence | assumption].
  - intros [_ H]. split; [now left | assumption].
Qed.

Lemma rpartition_none (c : ascii) (s : string) :
  free_of c s -> rpartition c s = None.
Proof.
  induction s as [|a s IH]; simpl; [reflexivity|].
  intros [Ha Hs]. rewrite IH by assumption.
  now destruct (Ascii.eqb_spec a c).
Qed.

Lemma rpartition_some (c : ascii) (s : string) :
  ~ free_of c s ->
  exists before after,
    rpartition c s = Some (before, after)
    /\ s = before ++ String c after
    /\ free_of c after.
Proof.
  induction s as [|a s IH]; simpl; [tauto|].
  intros Hnot. destruct (rpartition c s) as [[b t]|] eqn:E.
  - destruct IH as [b' [t' [E' [-> Hfree]]]].
    { intros Hs. now rewrite rpartition_none in E. }
    injection E' as <- <-. now exists (String a b), t.
  - destruct (Ascii.eqb_spec a c) as [-> | Ha].
    + exists "", s. repeat split.
      apply contains_char. destruct (contains (String c "") s) eqn:Ec;
        [| reflexivity].
      exfalso. destruct (Bool.bool_dec (contains (String c "") s) false)
        as [Hf | Hf]; [congruence|].
      destruct IH as [b' [t' [E' _]]]; [| congruence].
      intros Hs. apply contains_char in Hs. congruence.
    + exfalso. apply Hnot. split; [assumption|].
      apply contains_char. destruct (contains (String c "") s) eqn:Ec;
        [| reflexivity].
      destruct IH as [b' [t' [E' _]]]; [| congruence].
      intros Hs. apply contains_char in Hs. congruence.
Qed.

Lemma rpartition_unique (c : ascii) (before after : string) :
  free_of c after ->
  rpartition c (before ++ String c after) = Some (before, after).
Proof.
  intros Hfree. induction before as [|a before IH]; simpl.
  - rewrite rpartition_none by assumption. now rewrite Ascii.eqb_refl.
  - now rewrite IH.
Qed.

(** X15.  [allowed_file] never raises.  It accepts a name exactly when the
    name has a dot and the text after its last dot, lower-cased, is one of
    the allowed extensions; the text before the last dot plays no part (it
    may be empty or hold other dots). *)
Theorem allowed_file_checks_the_last_extension (filename : string) :
  (exists allowed, allowed_file filename = Ok allowed)
  /\ (allowed_file filename = Ok true <->
      exists stem extension,
        filename = stem ++ "." ++ extension
        /\ free_of "." extension
        /\ In (lower extension) Config.ALLOWED_EXTENSIONS).
Proof.
  unfold allowed_file.
  destruct (contains "." filename) eqn:Hdot.
  - destruct (rpartition_some "." filename) as [stem [ext [E [Hname Hfree]]]].
    { intros Hf. apply contains_char in Hf. congruence. }
    unfold rsplit1. rewrite E. cbn [getitem nth_error bind].
    split; [eauto|].
    split.
    + intros H.
      assert (Hmem : mem (lower ext) Config.ALLOWED_EXTENSIONS = true)
        by congruence.
      apply mem_spec in Hmem. now exists stem, ext.
    + intros [stem' [ext' [Hname' [Hfree' Hin]]]].
      assert (Hsame : Some (stem, ext) = Some (stem', ext')).
      { rewrite <- E, Hname'. now apply rpartition_unique. }
      injection Hsame as -> ->. f_equal. now apply mem_spec.
  - split; [eauto|]. split; [discriminate|].
    intros [stem [ext [Hname _]]]. exfalso.
    apply contains_char in Hdot. subst filename.
    clear -Hdot. induction stem as [|a stem IH]; simpl in Hdot.
    + now destruct Hdot.
    + apply IH. now destruct Hdot.
Qed.

(** X16.  [Config.validate] returns exactly when the four required values
    are set and non-empty; the names it reports as missing are exactly the
    names of the required values that are unset or empty, and the only
    exception it raises is the [ValueError] that lists them. *)
Theorem validate_requires_the_four_values (env : Config.Environment) :
  (Config.validate env = Ok tt <->
   Config.truthy (Config.AZURE_DOCUMENT_INTELLIGENCE_ENDPOINT env) = true
   /\ Config.truthy (Config.AZURE_DOCUMENT_INTELLIGENCE_KEY env) = true
   /\ Config.truthy (Config.AZURE_LANGUAGE_ENDPOINT env) = true
   /\ Config.truthy (Config.AZURE_LANGUAGE_KEY env) = true)
  /\ (forall name,
        In name (Config.missing env) <->
        exists value,
          In (name, value) (Config.required_configs env)
          /\ Config.truthy value = false)
  /\ (forall e,
        Config.validate env = Raise e ->
        e = ValueError ("Missing required configuration: "
                        ++ join ", " (Config.missing env)
                        ++ ". Please check your .env file.")).
Proof.
  split; [| split].
  - unfold Config.validate, Config.missing, Config.required_configs. simpl.
    destruct (Config.truthy (Config.AZURE_DOCUMENT_INTELLIGENCE_ENDPOINT env)),
      (Config.truthy (Config.AZURE_DOCUMENT_INTELLIGENCE_KEY env)),
      (Config.truthy (Config.AZURE_LANGUAGE_ENDPOINT env)),
      (Config.truthy (Config.AZURE_LANGUAGE_KEY env));
      simpl; split; intros H; try discriminate; try tauto;
      intuition discriminate.
  - intros name. unfold Config.missing. rewrite in_map_iff. split.
    + intros [[n v] [Hn Hin]]. simpl in Hn. subst n.
      apply filter_In in Hin as [Hin Hv]. simpl in Hv.
      exists v. split; [assumption | now destruct (Config.truthy v)].
    + intros [v [Hin Hv]]. exists (name, v). split; [reflexivity|].
      apply filter_In. split; [assumption | simpl; now rewrite Hv].
  - intros e. unfold Config.validate.
    destruct (Config.missing env); [discriminate|].
    intros H. now injection H as <-.
Qed.

Section Endpoint.

Variable redact_pii_service : list byte -> result (list byte * string).
Variable secure_filename : string -> string.
Variable listed_extensions : list string.

(** X17.  The endpoint answers 200 exactly when the request has a file
    under the key "file", its name is non-empty and accepted by
    [allowed_file], its content is non-empty and the pipeline returns; the
    body is then the image of the pipeline with its content type, offered
    under the secured file name. *)
Theorem endpoint_answers_200_exactly_on_success
    (files : list (string * App.FileStorage)) (body : App.Body) :
  App.redact_pii redact_pii_service secure_filename listed_extensions files
  = (body, 200)
  <->
  exists file bytes ctype,
    App.lookup "file" files = Some file
    /\ App.filename file <> ""
    /\ allowed_file (App.filename file) = Ok true
    /\ App.stream file <> []
    /\ redact_pii_service (App.stream file) = Ok (bytes, ctype)
    /\ body = App.Attachment bytes ctype
                (secure_filename (App.filename file)).
Proof.
  unfold App.redact_pii, App.internal_error. split.
  - destruct (App.lookup "file" files) as [file|]; [| discriminate].
    destruct (String.eqb_spec (App.filename file) "") as [E | Hne];
      [discriminate|].
    destruct (allowed_file (App.filename file)) as [[|]|e] eqn:Hallowed;
      try discriminate.
    destruct (App.stream file) as [|b0 bs] eqn:Hstream; [discriminate|].
    destruct (redact_pii_service (b0 :: bs)) as [[bytes ctype]|e] eqn:Hsvc;
      [| discriminate].
    intros H. injection H as <-.
    exists file, bytes, ctype. rewrite Hstream.
    repeat split; try assumption. discriminate.
  - intros [file [bytes [ctype [-> [Hne [-> [Hs [Hsvc ->]]]]]]]].
    destruct (String.eqb_spec (App.filename file) ""); [contradiction|].
    destruct (App.stream file) as [|b0 bs]; [contradiction|].
    now rewrite Hsvc.
Qed.

End Endpoint.

(** X18.  A 400 answer is decided before the pipeline is called: it is the
    same whatever the pipeline would do. *)
Theorem endpoint_rejects_before_the_pipeline
    (service service' : list byte -> result (list byte * string))
    (secure_filename : string -> string) (listed_extensions : list string)
    (files : list (string * App.FileStorage)) (body : App.Body) :
  App.redact_pii service secure_filename listed_extensions files
  = (body, 400) ->
  App.redact_pii service' secure_filename listed_extensions files
  = (body, 400).
Proof.
  unfold App.redact_pii, App.internal_error.
  destruct (App.lookup "file" files) as [file|]; [| auto].
  destruct (String.eqb (App.filename file) ""); [auto|].
  destruct (allowed_file (App.filename file)) as [[|]|e]; auto.
  destruct (App.stream file) as [|b0 bs]; [auto|].
  destruct (service (b0 :: bs)) as [[bytes ctype]|e]; discriminate.
Qed.

Section EndToEnd.

Import Models PiiDetectionService.

Variable num : Type.
Variable eqb_num : num -> num -> bool.
Variable extract_text_from_image
  : list byte -> result (string * list (DocumentWord num)).
Variable detect_pii : string -> result (list string).
Variable redact_image
  : list byte -> list (BoundingBox num) -> result ImageRedactionResult.
Variable secure_filename : string -> string.
Variable listed_extensions : list string.

(** X19.  For an accepted, non-empty upload on which the OCR and the
    detection return, the endpoint answers 500 with the message of the
    unhashable [DocumentWord] as soon as some word passes the test for a
    component of a detected value: no redacted image is sent. *)
Theorem endpoint_answers_500_when_a_word_matches
    (files : list (string * App.FileStorage)) (file : App.FileStorage)
    (text : string) (words : list (DocumentWord num))
    (pii_values : list string) (pii_value component : string)
    (word : DocumentWord num) :
  App.lookup "file" files = Some file ->
  App.filename file <> "" ->
  allowed_file (App.filename file) = Ok true ->
  App.stream file <> [] ->
  extract_text_from_image (App.stream file) = Ok (text, words) ->
  detect_pii text = Ok pii_values ->
  In pii_value pii_values ->
  In component (pii_components pii_value) ->
  In word words ->
  matches component word = true ->
  App.redact_pii
    (PiiRedactionService.redact_pii eqb_num extract_text_from_image
       (extract_pii detect_pii) redact_image)
    secure_filename listed_extensions files
  = (App.JsonError "An error occurred: unhashable type: 'DocumentWord'", 500).
Proof.
  intros Hfile Hne Hallowed Hs Hocr Hpii Hv Hc Hw Hm.
  unfold App.redact_pii. rewrite Hfile.
  destruct (String.eqb_spec (App.filename file) ""); [contradiction|].
  rewrite Hallowed.
  destruct (App.stream file) as [|b0 bs] eqn:Hstream; [contradiction|].
  rewrite (PipelineMoreFacts.redact_pii_raises_on_match eqb_num
             extract_text_from_image (extract_pii detect_pii) redact_image
             (b0 :: bs) (pii_values := set_of_strings pii_values)
             pii_value component word Hocr).
  - reflexivity.
  - unfold extract_pii. now rewrite Hpii.
  - unfold set_of_strings. now apply nodup_In.
  - assumption.
  - assumption.
  - assumption.
Qed.

End EndToEnd.

Import Models RawCodec Samples.

(** A request without a file part. *)
Lemma endpoint_rejects_before_the_pipeline_witness :
  App.redact_pii (fun _ => Ok ([], "image/png")) (fun name => name)
    Config.ALLOWED_EXTENSIONS []
  = (App.JsonError "No file part in the request", 400).
Proof.
  apply (@endpoint_rejects_before_the_pipeline
           (fun _ => Raise (ValueError "")) (fun _ => Ok ([], "image/png"))
           (fun name => name) Config.ALLOWED_EXTENSIONS []).
  reflexivity.
Defined.

(** The upload of the sample page, with the detector that finds its
    number. *)
Lemma endpoint_answers_500_when_a_word_matches_witness :
  App.redact_pii
    (PiiRedactionService.redact_pii Z.eqb
       (TextExtractionService.extract_text_from_image Z.ltb Z.sub
          sample_analyze)
       (PiiDetectionService.extract_pii sample_detect) raw_redact_image)
    (fun name => name) Config.ALLOWED_EXTENSIONS
    [("file", {| App.filename := "scan.PNG";
                 App.stream := enc_image sample_rgb |})]
  = (App.JsonError "An error occurred: unhashable type: 'DocumentWord'", 500).
Proof.
  apply (@endpoint_answers_500_when_a_word_matches Z Z.eqb
           (TextExtractionService.extract_text_from_image Z.ltb Z.sub
              sample_analyze)
           sample_detect raw_redact_image (fun name => name)
           Config.ALLOWED_EXTENSIONS
           [("file", {| App.filename := "scan.PNG";
                        App.stream := enc_image sample_rgb |})]
           {| App.filename := "scan.PNG";
              App.stream := enc_image sample_rgb |}
           "SSN: 123-45-6789"
           [mk_word "SSN:"
              {| x := 10; y := 10; width := 40; height := 12 |}%Z 1%Z;
            mk_word "123-45-6789"
              {| x := 60; y := 9; width := 101; height := 14 |}%Z 1%Z]
           ["123-45-6789"] "123-45-6789" "123-45-6789"
           (mk_word "123-45-6789"
              {| x := 60; y := 9; width := 101; height := 14 |}%Z 1%Z)).
  - reflexivity.
  - discriminate.
  - reflexivity.
  - discriminate.
  - reflexivity.
  - reflexivity.
  - now left.
  - now left.
  - right. now left.
  - reflexivity.
Defined.

End AppFacts.
